(** * jira issue comment update

    A shallow embedding of [internal/cmd/issue/comment/update/update.go]:
    the argument parser, the mode detector, the three [set*] methods of
    [updateCmd], the confirmation gate and the commit step of [update].

    The command talks to a terminal, the file system, the Jira client and a
    browser.  All of these live outside the file; they are gathered in one
    record of collaborators ([Env]), and every call the command makes to one
    of them is written to a trace of events, so that statements such as
    "no remote fetch is performed" are statements about that trace. *)

From Stdlib Require Import String List Bool Arith Lia.
Import ListNotations.
Local Open Scope list_scope.
Local Open Scope string_scope.

Set Implicit Arguments.

(** ** Go values *)

(** A Go [error] is represented by its message. *)
Definition error := string.

(** A call that returns [(value, error)] and whose value is only used when
    the error is nil. *)
Inductive result (A : Type) : Type :=
| Ok (a : A)
| Err (e : error).
Arguments Ok {A} a.
Arguments Err {A} e.

(** [terminal.InterruptErr] of the survey library. *)
Definition InterruptErr : error := "interrupt".

Definition newline : string := String (Ascii.ascii_of_nat 10) EmptyString.

(** ** The [addParams] struct *)

Record addParams : Type := mkParams {
  issueKey : string;
  commentId : string;
  body : string;
  template : string;
  noInput : bool;
  internal : bool;
  debug : bool
}.

Definition with_issueKey (p : addParams) (v : string) : addParams :=
  mkParams v p.(commentId) p.(body) p.(template) p.(noInput) p.(internal) p.(debug).
Definition with_commentId (p : addParams) (v : string) : addParams :=
  mkParams p.(issueKey) v p.(body) p.(template) p.(noInput) p.(internal) p.(debug).
Definition with_body (p : addParams) (v : string) : addParams :=
  mkParams p.(issueKey) p.(commentId) v p.(template) p.(noInput) p.(internal) p.(debug).
Definition with_noInput (p : addParams) (v : bool) : addParams :=
  mkParams p.(issueKey) p.(commentId) p.(body) p.(template) v p.(internal) p.(debug).

(** [query.FlagParser]: each getter returns a value and an error. *)
Record FlagParser : Type := mkFlags {
  GetBool : string -> result bool;
  GetString : string -> result string
}.

(** ** survey questions *)

Inductive Prompt : Type :=
| Input (Message : string)
| JiraEditor (Message Default : string)
             (HideDefault AppendDefault BlankAllowed : bool)
| Select (Message : string) (Options : list string).

Record Question : Type := mkQuestion {
  Name : string;
  prompt : Prompt;
  Required : bool (* Validate: survey.Required *)
}.

(** Modelled from the spec: the values of [cmdcommon.ActionSubmit] and
    [cmdcommon.ActionCancel], which are declared in another package; the
    spec names the two options "submit" and "cancel". *)
Definition ActionSubmit : string := "submit".
Definition ActionCancel : string := "cancel".

Definition getNextAction : Question :=
  {| Name := "action";
     prompt := Select "What's next?" [ActionSubmit; ActionCancel];
     Required := true |}.

(** Modelled from the spec: [cmdutil.GetJiraIssueKey], which is not part of
    this file.  "If the supplied token does not already look like a fully
    qualified issue key (no project prefix), prepend the configured default
    project key and a separator; otherwise pass through unchanged"; the
    data model says the prefix is added "if the token is a bare number". *)
Definition is_digit (c : Ascii.ascii) : bool :=
  let n := Ascii.nat_of_ascii c in ((48 <=? n)%nat && (n <=? 57)%nat)%bool.

Fixpoint all_digits (s : string) : bool :=
  match s with
  | EmptyString => true
  | String c rest => is_digit c && all_digits rest
  end.

Definition is_bare_number (s : string) : bool :=
  negb (s =? "") && all_digits s.

Definition spec_GetJiraIssueKey (project key : string) : string :=
  if is_bare_number key then project ++ "-" ++ key else key.

(** ** Events and runs *)

(** One event per call that leaves the file: building the client, the
    probe and the read of standard input or a file, a question put to the
    terminal, the two remote calls, the spinner, the two printed lines and
    the browser. *)
Inductive Event : Type :=
| EvDefaultClient (debug : bool)
| EvStdinHasData (has : bool)
| EvReadFile (path : string)
| EvAsk (q : Question)
| EvGetIssueComment (issueKey commentId : string)
| EvInfo (msg : string)
| EvUpdateIssueComment (issueKey commentId body : string) (internal : bool)
| EvStop
| EvSuccess (format : string) (args : list string)
| EvPrintf (text : string)
| EvNavigate (server issueKey : string).

(** How the process ends when it does not return from [update]. *)
Inductive Halt : Type :=
| Failed (msg : string)
| ExitError (err : error)
| Panic.

Record Run (A : Type) : Type := mkRun {
  trace : list Event;
  outcome : Halt + A
}.

Definition ret {A} (a : A) : Run A := mkRun [] (inr a).

Definition bind {A B} (m : Run A) (k : A -> Run B) : Run B :=
  match outcome m with
  | inl h => mkRun (trace m) (inl h)
  | inr a => mkRun (trace m ++ trace (k a))%list (outcome (k a))
  end.

Definition halt {A} (h : Halt) : Run A := mkRun [] (inl h).

Definition emit (ev : Event) : Run unit := mkRun [ev] (inr tt).

Notation "x <- m ;; k" := (bind m (fun x => k))
  (at level 61, m at next level, right associativity).
Notation "m ;;; k" := (bind m (fun _ => k))
  (at level 61, right associativity).

(** ** Reasoning about runs *)

(** Every event of the run satisfies [E]; if the run returns, its value
    satisfies [Q]. *)
Definition always {A} (E : Event -> Prop) (Q : A -> Prop) (m : Run A) : Prop :=
  Forall E (trace m) /\
  match outcome m with inl _ => True | inr a => Q a end.

Section Update.

(** The rich document of [pkg/adf].  The command only hands the pointer to
    the translator, so the document stays abstract. *)
Variable ADF : Type.

(** [jira.Comment.Body] has type [interface{}]: its dynamic value is an
    [*adf.ADF], a [string], or a value of any other type. *)
Inductive CommentBody : Type :=
| BodyADF (adfNode : ADF)
| BodyString (s : string)
| BodyOther.

Record Comment : Type := mkComment { Body : CommentBody }.

(** ** Collaborators *)

(** What the command finds around it.  [StdinHasData] tells whether
    standard input is a pipe, which does not change during a run. *)
Record Env : Type := mkEnv {
  (* viper *)
  viper_GetString : string -> string;
  (* cmdutil *)
  GetJiraIssueKey : string -> string -> string;
  StdinHasData : bool;
  ReadFile : string -> result string;
  GenerateServerBrowseURL : string -> string -> string;
  Navigate : string -> string -> option error;
  (* jira.Client *)
  GetIssueComment : string -> string -> result Comment;
  UpdateIssueComment : string -> string -> string -> bool -> option error;
  (* adf and md translators *)
  Translate : ADF -> string;
  FromJiraMD : string -> string;
  (* the person at the terminal: what is typed at an input question, what
     is saved from the editor opened on a default text, where the cursor
     rests when a selection is confirmed; a list that runs out, or no
     cursor, is an interrupt *)
  typed : string -> list string;
  edited : string -> string -> list string;
  cursor : string -> option nat
}.

Variable env : Env.

(** Modelled from the spec: [cmdutil.Failed], which is not part of this
    file, prints the message and ends the process with a non-zero status. *)
Definition cmdutil_Failed {A} (msg : string) : Run A := halt (Failed msg).

(** Modelled from the spec: [cmdutil.ExitIfError], which is not part of
    this file, ends the process with the error's message on a non-nil error
    and returns otherwise. *)
Definition cmdutil_ExitIfError (err : option error) : Run unit :=
  match err with
  | None => ret tt
  | Some e => halt (ExitError e)
  end.

(** [v, err := f(); cmdutil.ExitIfError(err)] *)
Definition orExit {A} (r : result A) : Run A :=
  match r with
  | Ok a => ret a
  | Err e => halt (ExitError e)
  end.

Definition cmdutil_StdinHasData : Run bool :=
  emit (EvStdinHasData env.(StdinHasData)) ;;; ret env.(StdinHasData).

Definition cmdutil_ReadFile (path : string) : Run (result string) :=
  emit (EvReadFile path) ;;; ret (env.(ReadFile) path).

Definition client_GetIssueComment (key id : string) : Run (result Comment) :=
  emit (EvGetIssueComment key id) ;;; ret (env.(GetIssueComment) key id).

Definition client_UpdateIssueComment (key id text : string) (intern : bool)
  : Run (option error) :=
  emit (EvUpdateIssueComment key id text intern) ;;;
  ret (env.(UpdateIssueComment) key id text intern).

Definition cmdutil_Navigate (server key : string) : Run (option error) :=
  emit (EvNavigate server key) ;;; ret (env.(Navigate) server key).

(** ** survey.Ask *)

(** A prompt is shown again until an answer is accepted. *)
Fixpoint first_accepted (accept : string -> bool) (answers : list string)
  : result string :=
  match answers with
  | [] => Err InterruptErr
  | a :: rest => if accept a then Ok a else first_accepted accept rest
  end.

Definition nonempty (s : string) : bool := negb (s =? "").

Definition survey_Required (q : Question) (s : string) : bool :=
  if q.(Required) then nonempty s else true.

(** Modelled from the spec: the editor prompt of [pkg/surveyext], which is
    not part of this file.  "Blank final input is rejected by the prompt
    itself (must be re-entered, not silently accepted)": with
    [BlankAllowed = false] an empty text is not accepted. *)
Definition JiraEditor_accepts (BlankAllowed : bool) (s : string) : bool :=
  BlankAllowed || nonempty s.

(** A selection returns the option under the cursor, which wraps around
    the list. *)
Definition select_option (options : list string) (i : nat) : result string :=
  match options with
  | [] => Err "please provide options to select from"
  | o :: _ => Ok (nth (i mod length options) options o)
  end.

Definition answer_of (q : Question) : result string :=
  match q.(prompt) with
  | Input _ =>
      first_accepted (survey_Required q) (env.(typed) q.(Name))
  | JiraEditor _ dflt _ _ blankAllowed =>
      first_accepted
        (fun s => JiraEditor_accepts blankAllowed s && survey_Required q s)
        (env.(edited) q.(Name) dflt)
  | Select _ options =>
      match env.(cursor) q.(Name) with
      | None => Err InterruptErr
      | Some i => select_option options i
      end
  end.

(** [survey.Ask(qs, &ans)]: the questions are asked in order; the first
    error ends the call; the answers are stored under the question names. *)
Fixpoint survey_Ask (qs : list Question)
  : Run (result (list (string * string))) :=
  match qs with
  | [] => ret (Ok [])
  | q :: rest =>
      emit (EvAsk q) ;;;
      match answer_of q with
      | Err e => ret (Err e)
      | Ok a =>
          r <- survey_Ask rest ;;
          match r with
          | Err e => ret (Err e)
          | Ok more => ret (Ok ((q.(Name), a) :: more))
          end
      end
  end.

(** The field of the answer struct named [name]; the zero value when no
    question wrote to it. *)
Fixpoint field (name : string) (answers : list (string * string)) : string :=
  match answers with
  | [] => ""
  | (n, v) :: rest => if n =? name then v else field name rest
  end.

(** ** The command *)

Definition parseArgsAndFlags (args : list string) (flags : FlagParser)
  : Run addParams :=
  let nargs := length args in
  let issueKey :=
    if (1 <=? nargs)%nat
    then env.(GetJiraIssueKey) (env.(viper_GetString) "project.key") (nth 0 args "")
    else "" in
  let commentId := if (2 <=? nargs)%nat then nth 1 args "" else "" in
  let body := if (3 <=? nargs)%nat then nth 2 args "" else "" in
  debug <- orExit (flags.(GetBool) "debug") ;;
  template <- orExit (flags.(GetString) "template") ;;
  noInput <- orExit (flags.(GetBool) "no-input") ;;
  internal <- orExit (flags.(GetBool) "internal") ;;
  ret {| issueKey := issueKey;
         commentId := commentId;
         body := body;
         template := template;
         noInput := noInput;
         internal := internal;
         debug := debug |}.

(** The methods of [updateCmd] read and write [uc.params]; they take the
    struct and give back the returned error with the struct as they leave
    it. *)

Definition issueKeyQuestion : Question :=
  {| Name := "issueKey"; prompt := Input "Issue key"; Required := true |}.

Definition setIssueKey (p : addParams) : Run (option error * addParams) :=
  if negb (p.(issueKey) =? "") then ret (None, p)
  else
    let qs := issueKeyQuestion in
    r <- survey_Ask [qs] ;;
    match r with
    | Err err => ret (Some err, p)
    | Ok answers =>
        let ans := field "issueKey" answers in
        ret (None,
             with_issueKey p
               (env.(GetJiraIssueKey) (env.(viper_GetString) "project.key") ans))
    end.

Definition commentIdQuestion : Question :=
  {| Name := "commendId"; prompt := Input "Comment Id"; Required := true |}.

Definition setCommentId (p : addParams) : Run (option error * addParams) :=
  if negb (p.(commentId) =? "") then ret (None, p)
  else
    let qs := commentIdQuestion in
    r <- survey_Ask [qs] ;;
    match r with
    | Err err => ret (Some err, p)
    | Ok answers => ret (None, with_commentId p (field "commendId" answers))
    end.

(** [originalComment.Body] is first tested against [*adf.ADF]; the
    fallback asserts [string] without the comma-ok form, which panics on
    any other dynamic type. *)
Definition body_of_comment (c : Comment) : Run string :=
  match c.(Body) with
  | BodyADF adfNode => ret (env.(Translate) adfNode)
  | BodyString s => ret (env.(FromJiraMD) s)
  | BodyOther => halt Panic
  end.

Definition bodyQuestion (defaultBody : string) : Question :=
  {| Name := "body";
     prompt := JiraEditor "Comment body" defaultBody true true false;
     Required := false |}.

Definition setBody (p : addParams) : Run (option error * addParams) :=
  if negb (p.(body) =? "") then ret (None, p)
  else
    hasSource <-
      (if negb (p.(template) =? "") then ret true else cmdutil_StdinHasData) ;;
    defaultBody <-
      (if hasSource : bool then
         r <- cmdutil_ReadFile p.(template) ;;
         match r with
         | Err err => cmdutil_Failed ("Error: " ++ err)
         | Ok b => ret b
         end
       else ret "") ;;
    if p.(noInput) then ret (None, with_body p defaultBody)
    else
      defaultBody <-
        (if p.(template) =? "" then
           r <- client_GetIssueComment p.(issueKey) p.(commentId) ;;
           originalComment <- orExit r ;;
           body_of_comment originalComment
         else ret defaultBody) ;;
      let qs := if p.(body) =? "" then [bodyQuestion defaultBody] else [] in
      r <- survey_Ask qs ;;
      ans <- orExit r ;;
      ret (None, with_body p (field "body" ans)).

Definition isNonInteractive (p : addParams) : Run bool :=
  has <- cmdutil_StdinHasData ;;
  ret (has || (p.(template) =? "-")).

Definition isMandatoryParamsMissing (p : addParams) : bool :=
  (p.(issueKey) =? "") || (p.(commentId) =? "").

Definition missing_msg : string :=
  "`ISSUE-KEY` & `COMMENT-ID` are mandatory when using a non-interactive mode".

(** [update], in the stretches of its body.  [params] and
    [uc.params] are the same pointer: the write to [uc.params.noInput] is
    what the confirmation gate later reads through [params.noInput], so one
    struct is threaded through the whole function. *)

(** Lines 68 to 86: parse, detect the mode, resolve key and id. *)
Definition identify (flags : FlagParser) (args : list string) : Run addParams :=
  params <- parseArgsAndFlags args flags ;;
  emit (EvDefaultClient params.(debug)) ;;;
  nonInteractive <- isNonInteractive params ;;
  params <-
    (if nonInteractive : bool then
       let params := with_noInput params true in
       (if isMandatoryParamsMissing params
        then cmdutil_Failed missing_msg
        else ret tt) ;;;
       ret params
     else ret params) ;;
  r <- setIssueKey params ;;
  cmdutil_ExitIfError (fst r) ;;;
  r <- setCommentId (snd r) ;;
  cmdutil_ExitIfError (fst r) ;;;
  ret (snd r).

(** Lines 68 to 88: the same, then the body. *)
Definition resolve (flags : FlagParser) (args : list string) : Run addParams :=
  params <- identify flags args ;;
  r <- setBody params ;;
  cmdutil_ExitIfError (fst r) ;;;
  ret (snd r).

(** Lines 90 to 98: the confirmation gate. *)
Definition confirm (params : addParams) : Run unit :=
  if negb params.(noInput) then
    r <- survey_Ask [getNextAction] ;;
    answer <- orExit r ;;
    if field "action" answer =? ActionCancel
    then cmdutil_Failed "Action aborted"
    else ret tt
  else ret tt.

(** Lines 100 to 116: the remote call, the report, the browser. *)
Definition commit (flags : FlagParser) (params : addParams) : Run unit :=
  err <-
    (emit (EvInfo "Adding comment") ;;;
     err <- client_UpdateIssueComment
              params.(issueKey) params.(commentId) params.(body) params.(internal) ;;
     emit EvStop ;;;
     ret err) ;;
  cmdutil_ExitIfError err ;;;
  let server := env.(viper_GetString) "server" in
  emit (EvSuccess "Comment %q of issue %q updated"
          [params.(commentId); params.(issueKey)]) ;;;
  emit (EvPrintf
          (env.(GenerateServerBrowseURL) server params.(issueKey)
           ++ "?focusedCommentId=" ++ params.(commentId) ++ newline)) ;;;
  (* web, _ := cmd.Flags().GetBool("web") *)
  let web := match flags.(GetBool) "web" with Ok b => b | Err _ => false end in
  if web then
    err <- cmdutil_Navigate server params.(issueKey) ;;
    cmdutil_ExitIfError err
  else ret tt.

Definition update (flags : FlagParser) (args : list string) : Run unit :=
  params <- resolve flags args ;;
  confirm params ;;;
  commit flags params.

End Update.

Arguments BodyADF {ADF} adfNode.
Arguments BodyString {ADF} s.
Arguments BodyOther {ADF}.

(** ** The state in which [setBody] is entered *)

(** The mode detector as a value: what [isNonInteractive] returns. *)
Definition nonInteractive {ADF} (env : Env ADF) (p : addParams) : bool :=
  StdinHasData env || (p.(template) =? "-").

(** [p] is a struct with which [update], started on the parsed parameters
    [p0], can call [setBody]: the mode detector has forced [noInput] when
    it fired, in which case key and id were given; a key or an id that was
    given is unchanged; nothing else has been written. *)
Definition enters_setBody {ADF} (env : Env ADF) (p0 p : addParams) : Prop :=
  body p = body p0 /\
  template p = template p0 /\
  internal p = internal p0 /\
  debug p = debug p0 /\
  noInput p = (noInput p0 || nonInteractive env p0)%bool /\
  (issueKey p0 <> "" -> issueKey p = issueKey p0) /\
  (commentId p0 <> "" -> commentId p = commentId p0) /\
  (nonInteractive env p0 = true -> issueKey p0 <> "" /\ commentId p0 <> "").

(** The value of [params.noInput] once the mode detector has run (line
    77): the flag, or forced by the detector. *)
Definition unattended {ADF} (env : Env ADF) (p : addParams) : bool :=
  noInput p || nonInteractive env p.

(** ** What [setBody] does, as seen from outside *)

(** Line 222: a template path was given, or standard input has data. *)
Definition has_source {ADF} (env : Env ADF) (p : addParams) : bool :=
  negb (p.(template) =? "") || StdinHasData env.

(** The text the editor opens on: the translation of the fetched comment
    when no template was given, the template's content otherwise. *)
Definition normalized {ADF} (env : Env ADF) (cm : Comment ADF) (d : string)
  : Prop :=
  match Body cm with
  | BodyADF adfNode => d = Translate env adfNode
  | BodyString s => d = FromJiraMD env s
  | BodyOther => False
  end.

Definition editor_default {ADF} (env : Env ADF) (p : addParams) (d : string)
  : Prop :=
  if p.(template) =? "" then
    exists cm,
      GetIssueComment env p.(issueKey) p.(commentId) = Ok cm /\
      normalized env cm d
  else ReadFile env p.(template) = Ok d.

Definition setBody_event {ADF} (env : Env ADF) (p : addParams) (ev : Event)
  : Prop :=
  body p = "" /\
  match ev with
  | EvStdinHasData has => has = StdinHasData env /\ template p = ""
  | EvReadFile path => path = template p /\ has_source env p = true
  | EvGetIssueComment k c =>
      k = issueKey p /\ c = commentId p /\
      noInput p = false /\ template p = ""
  | EvAsk q =>
      noInput p = false /\
      exists d, q = bodyQuestion d /\ editor_default env p d
  | _ => False
  end.

Definition setBody_result {ADF} (env : Env ADF) (p : addParams)
           (r : option error * addParams) : Prop :=
  fst r = None /\
  exists t,
    snd r = with_body p t /\
    (body p <> "" -> t = body p) /\
    (body p = "" -> noInput p = true ->
     if has_source env p then ReadFile env (template p) = Ok t else t = "") /\
    (body p = "" -> noInput p = false -> t <> "").

(** How [setBody] ends once the editor is opened on [d]. *)
Definition editor_outcome {ADF} (env : Env ADF) (p : addParams) (d : string)
  : Halt + (option error * addParams) :=
  match answer_of env (bodyQuestion d) with
  | Ok a => inr (None, with_body p a)
  | Err e => inl (ExitError e)
  end.

(** The events of a commit step whose remote call succeeds, up to the
    printed deep link. *)
Definition committed {ADF} (env : Env ADF) (p : addParams) : list Event :=
  [ EvInfo "Adding comment";
    EvUpdateIssueComment p.(issueKey) p.(commentId) p.(body) p.(internal);
    EvStop;
    EvSuccess "Comment %q of issue %q updated" [p.(commentId); p.(issueKey)];
    EvPrintf (GenerateServerBrowseURL env (viper_GetString env "server")
                                      p.(issueKey)
              ++ "?focusedCommentId=" ++ p.(commentId) ++ newline) ].

(** ** What [resolve] does, as seen from outside *)

Definition identify_event {ADF} (env : Env ADF) (p0 : addParams) (ev : Event)
  : Prop :=
  ev = EvDefaultClient (debug p0) \/
  ev = EvStdinHasData (StdinHasData env) \/
  (ev = EvAsk issueKeyQuestion /\
   issueKey p0 = "" /\ nonInteractive env p0 = false) \/
  (ev = EvAsk commentIdQuestion /\
   commentId p0 = "" /\ nonInteractive env p0 = false).

Definition resolve_event {ADF} (env : Env ADF) (p0 : addParams) (ev : Event)
  : Prop :=
  identify_event env p0 ev \/
  (exists p, enters_setBody env p0 p /\ setBody_event env p ev).

Definition resolve_result {ADF} (env : Env ADF) (p0 q : addParams) : Prop :=
  exists p, enters_setBody env p0 p /\ setBody_result env p (None, q).

(** ** Events of the last two stretches *)

(** The gate asks one question, and only when [noInput] is off. *)
Definition confirm_event (p : addParams) (ev : Event) : Prop :=
  ev = EvAsk getNextAction /\ noInput p = false.

(** The commit step calls the remote update with the four fields of the
    struct and otherwise only reports and navigates. *)
Definition commit_event (p : addParams) (ev : Event) : Prop :=
  match ev with
  | EvInfo _ | EvStop | EvSuccess _ _ | EvPrintf _ | EvNavigate _ _ => True
  | EvUpdateIssueComment k c t i =>
      k = issueKey p /\ c = commentId p /\ t = body p /\ i = internal p
  | _ => False
  end.

(** An event of the whole command, started on parameters that parse to
    [p0]. *)
Definition update_event {ADF} (env : Env ADF) (p0 : addParams) (ev : Event)
  : Prop :=
  resolve_event env p0 ev \/
  exists q, resolve_result env p0 q /\
            (confirm_event q ev \/ commit_event q ev).

(** ** A sample installation, for concrete runs *)

Definition sample_flags (tpl : string) (noInput internal web : bool)
  : FlagParser :=
  {| GetBool := fun name =>
       if name =? "debug" then Ok false
       else if name =? "no-input" then Ok noInput
       else if name =? "internal" then Ok internal
       else if name =? "web" then Ok web
       else Err ("flag accessed but not defined: " ++ name);
     GetString := fun name =>
       if name =? "template" then Ok tpl
       else Err ("flag accessed but not defined: " ++ name) |}.

Definition sample_config (key : string) : string :=
  if key =? "project.key" then "PROJ"
  else if key =? "server" then "https://jira.example.com"
  else "".

(** A machine with one template file, [body.tmpl]; [piped] is the data on
    standard input, if any; [remote] is what the server answers to a fetch;
    the last three arguments are the person at the terminal. *)
Definition sample_env (piped : option string) (remote : result (Comment unit))
           (typed : string -> list string)
           (edited : string -> string -> list string)
           (cursor : string -> option nat) : Env unit :=
  {| viper_GetString := sample_config;
     GetJiraIssueKey := spec_GetJiraIssueKey;
     StdinHasData := match piped with Some _ => true | None => false end;
     ReadFile := fun path =>
       if (path =? "-") || (path =? "") then
         match piped with
         | Some data => Ok data
         | None => Err "no data on standard input"
         end
       else if path =? "body.tmpl" then Ok "from file"
       else Err ("open " ++ path ++ ": no such file or directory");
     GenerateServerBrowseURL := fun server key => server ++ "/browse/" ++ key;
     Navigate := fun _ _ => None;
     GetIssueComment := fun _ _ => remote;
     UpdateIssueComment := fun _ _ _ _ => None;
     Translate := fun _ => "Hello";
     FromJiraMD := fun s => s;
     typed := typed;
     edited := edited;
     cursor := cursor |}.

Definition nobody_types : string -> list string := fun _ => [].
Definition nobody_edits : string -> string -> list string := fun _ _ => [].
Definition nobody_picks : string -> option nat := fun _ => None.

Definition legacy_comment : result (Comment unit) :=
  Ok (mkComment (BodyString "old text")).

(** Nobody at the terminal, nothing piped. *)
Definition quiet_env : Env unit :=
  sample_env None legacy_comment nobody_types nobody_edits nobody_picks.

(** Somebody who picks the second option, cancel, at the gate. *)
Definition cancelling_env : Env unit :=
  sample_env None legacy_comment nobody_types nobody_edits (fun _ => Some 1).

(** Somebody who types a key and an id when asked. *)
Definition typing_env : Env unit :=
  sample_env None legacy_comment
             (fun name => if name =? "issueKey" then ["7"] else ["1001"])
             nobody_edits nobody_picks.

(** Data on standard input. *)
Definition piped_env : Env unit :=
  sample_env (Some "from pipe") legacy_comment
             nobody_types nobody_edits nobody_picks.

(** A server whose comment body is neither a document nor a string. *)
Definition odd_env : Env unit :=
  sample_env None (Ok (mkComment BodyOther))
             nobody_types nobody_edits nobody_picks.

(** A flag set on which no flag is defined. *)
Definition no_flags : FlagParser :=
  {| GetBool := fun name => Err ("flag accessed but not defined: " ++ name);
     GetString := fun name => Err ("flag accessed but not defined: " ++ name) |}.

(** Somebody who picks the first option, submit, at the gate. *)
Definition submitting_env : Env unit :=
  sample_env None legacy_comment nobody_types nobody_edits (fun _ => Some 0).

(** Somebody who saves the default text with a word added, then submits. *)
Definition editing_env : Env unit :=
  sample_env None legacy_comment nobody_types
             (fun _ dflt => [dflt ++ " (edited)"]) (fun _ => Some 0).

(** A server that refuses the update. *)
Definition rejecting_env : Env unit :=
  {| viper_GetString := sample_config;
     GetJiraIssueKey := spec_GetJiraIssueKey;
     StdinHasData := false;
     ReadFile := ReadFile quiet_env;
     GenerateServerBrowseURL := GenerateServerBrowseURL quiet_env;
     Navigate := fun _ _ => None;
     GetIssueComment := fun _ _ => legacy_comment;
     UpdateIssueComment := fun _ _ _ _ => Some "403 Forbidden";
     Translate := fun _ => "Hello";
     FromJiraMD := fun s => s;
     typed := nobody_types;
     edited := nobody_edits;
     cursor := nobody_picks |}.

(** ** How a run can end early *)

(** Every early end of the run satisfies [H]. *)
Definition halts_only {A} (H : Halt -> Prop) (m : Run A) : Prop :=
  forall h, outcome m = inl h -> H h.

(** The early ends of [update]: the three failure messages, an error
    handed back by a flag getter, a prompt, the fetch, the remote update or
    the browser, and the panic of the unchecked type assertion. *)
Definition update_halt {ADF} (env : Env ADF) (flags : FlagParser) (h : Halt)
  : Prop :=
  match h with
  | Failed msg =>
      msg = missing_msg \/
      msg = "Action aborted" \/
      exists path e, ReadFile env path = Err e /\ msg = "Error: " ++ e
  | ExitError e =>
      GetBool flags "debug" = Err e \/
      GetString flags "template" = Err e \/
      GetBool flags "no-input" = Err e \/
      GetBool flags "internal" = Err e \/
      (exists q, answer_of env q = Err e) \/
      (exists k c, GetIssueComment env k c = Err e) \/
      (exists k c t i, UpdateIssueComment env k c t i = Some e) \/
      (exists s k, Navigate env s k = Some e)
  | Panic =>
      exists k c cm, GetIssueComment env k c = Ok cm /\ Body cm = BodyOther
  end.

(** ** Counting remote updates *)

Definition is_update_call (ev : Event) : bool :=
  match ev with
  | EvUpdateIssueComment _ _ _ _ => true
  | _ => false
  end.

Definition update_calls (t : list Event) : nat :=
  length (filter is_update_call t).

(** ** Laws of runs *)

Lemma bind_halts A B (m : Run A) (k : A -> Run B) h :
  outcome m = inl h -> bind m k = mkRun (trace m) (inl h).
Proof. intros H. unfold bind. rewrite H. reflexivity. Qed.

Lemma bind_returns A B (m : Run A) (k : A -> Run B) a :
  outcome m = inr a ->
  bind m k = mkRun (trace m ++ trace (k a))%list (outcome (k a)).
Proof. intros H. unfold bind. rewrite H. reflexivity. Qed.

Lemma outcome_bind_inv A B (m : Run A) (k : A -> Run B) b :
  outcome (bind m k) = inr b ->
  exists a, outcome m = inr a /\ outcome (k a) = inr b.
Proof.
  unfold bind. destruct (outcome m) as [h | a]; simpl; intros H.
  - discriminate.
  - exists a. split; [reflexivity | exact H].
Qed.

Lemma in_trace_bind A B (m : Run A) (k : A -> Run B) ev :
  In ev (trace (bind m k)) ->
  In ev (trace m) \/ exists a, outcome m = inr a /\ In ev (trace (k a)).
Proof.
  unfold bind. destruct (outcome m) as [h | a]; simpl; intros H.
  - left. exact H.
  - apply in_app_or in H. destruct H as [H | H]; [left; exact H | right].
    exists a. split; [reflexivity | exact H].
Qed.

Lemma in_trace_bind_l A B (m : Run A) (k : A -> Run B) ev :
  In ev (trace m) -> In ev (trace (bind m k)).
Proof.
  unfold bind. destruct (outcome m); simpl; intros H.
  - exact H.
  - apply in_or_app. left. exact H.
Qed.

Lemma in_trace_bind_r A B (m : Run A) (k : A -> Run B) a ev :
  outcome m = inr a -> In ev (trace (k a)) -> In ev (trace (bind m k)).
Proof.
  intros Ha H. rewrite (@bind_returns _ _ m k a Ha). simpl.
  apply in_or_app. right. exact H.
Qed.

(** ** Rules for [always] *)

Lemma always_ret A (E : Event -> Prop) (Q : A -> Prop) a :
  Q a -> always E Q (ret a).
Proof. intros H. split; [constructor | exact H]. Qed.

Lemma always_halt A (E : Event -> Prop) (Q : A -> Prop) h :
  always E Q (halt h).
Proof. split; [constructor | exact I]. Qed.

Lemma always_emit (E : Event -> Prop) (Q : unit -> Prop) ev :
  E ev -> Q tt -> always E Q (emit ev).
Proof. intros He Hq. split; [repeat constructor; exact He | exact Hq]. Qed.

Lemma always_bind A B (E : Event -> Prop) (Q : B -> Prop)
      (m : Run A) (k : A -> Run B) :
  always E (fun a => always E Q (k a)) m -> always E Q (bind m k).
Proof.
  intros [Ht Ho]. unfold bind. destruct (outcome m) as [h | a]; simpl.
  - split; [exact Ht | exact I].
  - destruct Ho as [Hk Hq]. split; [| exact Hq].
    apply Forall_app. split; assumption.
Qed.

Lemma always_mono A (E E' : Event -> Prop) (Q Q' : A -> Prop) (m : Run A) :
  always E Q m ->
  (forall ev, E ev -> E' ev) -> (forall a, Q a -> Q' a) ->
  always E' Q' m.
Proof.
  intros [Ht Ho] HE HQ. split.
  - eapply Forall_impl; [exact HE | exact Ht].
  - destruct (outcome m); [exact I | apply HQ; exact Ho].
Qed.

Lemma always_call A B (E E1 : Event -> Prop) (Q1 : A -> Prop) (Q : B -> Prop)
      (m : Run A) (k : A -> Run B) :
  always E1 Q1 m ->
  (forall ev, E1 ev -> E ev) ->
  (forall a, Q1 a -> always E Q (k a)) ->
  always E Q (bind m k).
Proof.
  intros Hm HE Hk. apply always_bind.
  eapply always_mono; [exact Hm | exact HE | exact Hk].
Qed.

Lemma always_event A (E : Event -> Prop) (Q : A -> Prop) (m : Run A) ev :
  always E Q m -> In ev (trace m) -> E ev.
Proof.
  intros [Ht _] Hin. rewrite Forall_forall in Ht. apply Ht. exact Hin.
Qed.

Lemma always_value A (E : Event -> Prop) (Q : A -> Prop) (m : Run A) a :
  always E Q m -> outcome m = inr a -> Q a.
Proof. intros [_ Ho] Ha. rewrite Ha in Ho. exact Ho. Qed.

Section Facts.

Variable ADF : Type.
Variable env : Env ADF.

(** ** Prompts *)

Lemma first_accepted_accepts accept answers a :
  first_accepted accept answers = Ok a -> accept a = true.
Proof.
  induction answers as [| x rest IH]; simpl.
  - discriminate.
  - destruct (accept x) eqn:Hx.
    + intros H. injection H as <-. exact Hx.
    + exact IH.
Qed.

Lemma select_option_in options i a :
  select_option options i = Ok a -> In a options.
Proof.
  unfold select_option. destruct options as [| o rest]; [discriminate |].
  assert (Hin : In (nth (i mod length (o :: rest)) (o :: rest) o) (o :: rest)).
  { apply nth_In. apply Nat.mod_upper_bound. simpl. discriminate. }
  intros H. injection H as H. rewrite <- H. exact Hin.
Qed.

Lemma nonempty_true s : nonempty s = true -> s <> "".
Proof.
  unfold nonempty. destruct (String.eqb_spec s ""); [discriminate | auto].
Qed.

Lemma editor_answer_nonempty d a :
  answer_of env (bodyQuestion d) = Ok a -> a <> "".
Proof.
  unfold answer_of. simpl. intros H.
  apply first_accepted_accepts in H.
  apply andb_prop in H. destruct H as [H _].
  apply nonempty_true. exact H.
Qed.

Lemma action_answer a :
  answer_of env getNextAction = Ok a -> a = ActionSubmit \/ a = ActionCancel.
Proof.
  unfold answer_of, getNextAction. cbn [prompt Name].
  destruct (cursor env "action") as [i |]; [| discriminate].
  intros H. apply select_option_in in H. simpl in H. intuition congruence.
Qed.

Lemma survey_Ask_one q :
  survey_Ask env [q] =
  mkRun [EvAsk q]
        (inr match answer_of env q with
             | Err e => Err e
             | Ok a => Ok [(Name q, a)]
             end).
Proof. simpl. destruct (answer_of env q); reflexivity. Qed.

(** ** The argument parser *)

Lemma parse_trace args flags : trace (parseArgsAndFlags env args flags) = [].
Proof.
  unfold parseArgsAndFlags.
  destruct (GetBool flags "debug"); simpl; [| reflexivity].
  destruct (GetString flags "template"); simpl; [| reflexivity].
  destruct (GetBool flags "no-input"); simpl; [| reflexivity].
  destruct (GetBool flags "internal"); reflexivity.
Qed.

Lemma parse_inv args flags p :
  outcome (parseArgsAndFlags env args flags) = inr p ->
  GetBool flags "debug" = Ok (debug p) /\
  GetString flags "template" = Ok (template p) /\
  GetBool flags "no-input" = Ok (noInput p) /\
  GetBool flags "internal" = Ok (internal p) /\
  issueKey p =
    (if (1 <=? length args)%nat
     then GetJiraIssueKey env (viper_GetString env "project.key") (nth 0 args "")
     else "") /\
  commentId p = (if (2 <=? length args)%nat then nth 1 args "" else "") /\
  body p = (if (3 <=? length args)%nat then nth 2 args "" else "").
Proof.
  unfold parseArgsAndFlags.
  destruct (GetBool flags "debug"); simpl; [| discriminate].
  destruct (GetString flags "template"); simpl; [| discriminate].
  destruct (GetBool flags "no-input"); simpl; [| discriminate].
  destruct (GetBool flags "internal"); simpl; [| discriminate].
  intros H. injection H as <-. simpl. repeat split; reflexivity.
Qed.

Lemma parse_body args flags p :
  outcome (parseArgsAndFlags env args flags) = inr p -> body p = nth 2 args "".
Proof.
  intros H. apply parse_inv in H.
  destruct H as (_ & _ & _ & _ & _ & _ & ->).
  destruct (Nat.leb_spec 3 (length args)) as [Hle | Hlt]; [reflexivity |].
  symmetry. apply nth_overflow. lia.
Qed.

Lemma parse_ok args flags d t n i :
  GetBool flags "debug" = Ok d ->
  GetString flags "template" = Ok t ->
  GetBool flags "no-input" = Ok n ->
  GetBool flags "internal" = Ok i ->
  parseArgsAndFlags env args flags =
  ret {| issueKey :=
           if (1 <=? length args)%nat
           then GetJiraIssueKey env (viper_GetString env "project.key") (nth 0 args "")
           else "";
         commentId := if (2 <=? length args)%nat then nth 1 args "" else "";
         body := if (3 <=? length args)%nat then nth 2 args "" else "";
         template := t; noInput := n; internal := i; debug := d |}.
Proof.
  intros Hd Ht Hn Hi. unfold parseArgsAndFlags.
  rewrite Hd, Ht, Hn, Hi. reflexivity.
Qed.

(** ** Key and id *)

Lemma with_issueKey_same p : with_issueKey p (issueKey p) = p.
Proof. destruct p; reflexivity. Qed.

Lemma with_commentId_same p : with_commentId p (commentId p) = p.
Proof. destruct p; reflexivity. Qed.

(** [setIssueKey] asks at most the issue-key question, and only for an
    empty key; when it returns without error only the key has changed, and
    a key that was given is kept. *)
Lemma setIssueKey_spec p :
  always (fun ev => ev = EvAsk issueKeyQuestion /\ issueKey p = "")
         (fun r => fst r = None ->
                   exists v, snd r = with_issueKey p v /\
                             (issueKey p <> "" -> v = issueKey p))
         (setIssueKey env p).
Proof.
  unfold setIssueKey.
  destruct (String.eqb_spec (issueKey p) "") as [He | Hne]; cbn [negb].
  - rewrite survey_Ask_one. unfold bind. cbn [outcome trace].
    destruct (answer_of env issueKeyQuestion) as [a | e];
      (split; [repeat constructor; assumption |]); cbn.
    + intros _. eexists. split; [reflexivity | congruence].
    + discriminate.
  - apply always_ret. simpl. intros _. exists (issueKey p).
    split; [symmetry; apply with_issueKey_same | reflexivity].
Qed.

Lemma setCommentId_spec p :
  always (fun ev => ev = EvAsk commentIdQuestion /\ commentId p = "")
         (fun r => fst r = None ->
                   exists v, snd r = with_commentId p v /\
                             (commentId p <> "" -> v = commentId p))
         (setCommentId env p).
Proof.
  unfold setCommentId.
  destruct (String.eqb_spec (commentId p) "") as [He | Hne]; cbn [negb].
  - rewrite survey_Ask_one. unfold bind. cbn [outcome trace].
    destruct (answer_of env commentIdQuestion) as [a | e];
      (split; [repeat constructor; assumption |]); cbn.
    + intros _. eexists. split; [reflexivity | congruence].
    + discriminate.
  - apply always_ret. simpl. intros _. exists (commentId p).
    split; [symmetry; apply with_commentId_same | reflexivity].
Qed.

(** ** Stepping through a run *)

Lemma always_asked A (E : Event -> Prop) (Q : A -> Prop) q a :
  E (EvAsk q) -> Q a -> always E Q (mkRun [EvAsk q] (inr a)).
Proof. intros He Hq. split; [repeat constructor; exact He | exact Hq]. Qed.

Ltac run_prim :=
  cbv beta iota;
  lazymatch goal with
  | |- always _ _ (bind ?m _) =>
      lazymatch m with
      | setIssueKey _ _ => fail
      | setCommentId _ _ => fail
      | setBody _ _ => fail
      | _ => apply always_bind
      end
  | |- always _ _ (ret _) => apply always_ret
  | |- always _ _ (halt _) => apply always_halt
  | |- always _ _ (cmdutil_Failed _) => apply always_halt
  | |- always _ _ (cmdutil_ExitIfError (Some _)) => apply always_halt
  | |- always _ _ (cmdutil_ExitIfError None) => apply always_ret
  | |- always _ _ (orExit (Err _)) => apply always_halt
  | |- always _ _ (orExit (Ok _)) => apply always_ret
  | |- always _ _ (emit _) => apply always_emit; [try assumption |]
  | |- always _ _ (survey_Ask _ [_]) =>
      rewrite survey_Ask_one; apply always_asked; [try assumption |]
  | |- always _ _ (survey_Ask _ []) => apply always_ret
  | |- always _ _ (cmdutil_StdinHasData _) => unfold cmdutil_StdinHasData
  | |- always _ _ (cmdutil_ReadFile _ _) => unfold cmdutil_ReadFile
  | |- always _ _ (client_GetIssueComment _ _ _) => unfold client_GetIssueComment
  | |- always _ _ (client_UpdateIssueComment _ _ _ _ _) =>
      unfold client_UpdateIssueComment
  | |- always _ _ (cmdutil_Navigate _ _ _) => unfold cmdutil_Navigate
  end.

Ltac run_case :=
  cbv beta;
  lazymatch goal with
  | |- always _ _ (cmdutil_ExitIfError ?e) =>
      destruct e eqn:?; cbn [cmdutil_ExitIfError]
  | |- always _ _ (orExit ?r) => destruct r eqn:?; cbn [orExit]
  | |- always _ _ (body_of_comment _ ?c) =>
      unfold body_of_comment; destruct (Body c) eqn:?
  | |- always _ _ (if ?c then _ else _) => destruct c eqn:?
  | |- always _ _ (match ?c with _ => _ end) => destruct c eqn:?
  end.

Ltac run_prims := repeat run_prim.
Ltac run_steps := repeat first [run_prim | run_case].

(** ** The way to [setBody] *)

Lemma identify_tail (E : Event -> Prop) (Q : addParams -> Prop) p :
  (issueKey p = "" -> E (EvAsk issueKeyQuestion)) ->
  (commentId p = "" -> E (EvAsk commentIdQuestion)) ->
  (forall k c,
     (issueKey p <> "" -> k = issueKey p) ->
     (commentId p <> "" -> c = commentId p) ->
     Q (with_commentId (with_issueKey p k) c)) ->
  always E Q
    (r <- setIssueKey env p ;;
     cmdutil_ExitIfError (fst r) ;;;
     r <- setCommentId env (snd r) ;;
     cmdutil_ExitIfError (fst r) ;;;
     ret (snd r)).
Proof.
  intros Hk Hi Hq.
  eapply always_call; [apply setIssueKey_spec | |].
  { cbv beta. intros ev [-> He]. auto. }
  intros [[e1 |] p1] Hp1; cbn [fst snd] in *; run_prims.
  destruct (Hp1 eq_refl) as (k & -> & Hk1). clear Hp1.
  eapply always_call; [apply setCommentId_spec | |].
  { cbv beta. intros ev [-> He]. auto. }
  intros [[e2 |] p2] Hp2; cbn [fst snd] in *; run_prims.
  destruct (Hp2 eq_refl) as (c & -> & Hc1). clear Hp2.
  apply Hq; assumption.
Qed.

Lemma identify_always flags args (E : Event -> Prop) (Q : addParams -> Prop) :
  (forall p0,
     outcome (parseArgsAndFlags env args flags) = inr p0 ->
     E (EvDefaultClient (debug p0)) /\
     E (EvStdinHasData (StdinHasData env)) /\
     (issueKey p0 = "" -> nonInteractive env p0 = false ->
      E (EvAsk issueKeyQuestion)) /\
     (commentId p0 = "" -> nonInteractive env p0 = false ->
      E (EvAsk commentIdQuestion)) /\
     (forall p, enters_setBody env p0 p -> Q p)) ->
  always E Q (identify env flags args).
Proof.
  intros H. unfold identify. apply always_bind. split.
  { rewrite parse_trace. constructor. }
  destruct (outcome (parseArgsAndFlags env args flags)) as [h | p0] eqn:Hp;
    [exact I |].
  destruct (H p0 eq_refl) as (Hc & Hs & Hk & Hi & Hb). clear H.
  unfold isNonInteractive. run_prims.
  assert (Hni : nonInteractive env p0 =
                (StdinHasData env || (template p0 =? "-"))%bool) by reflexivity.
  destruct (StdinHasData env || (template p0 =? "-"))%bool eqn:Hmode.
  - (* non-interactive: noInput is forced and the guard runs *)
    unfold isMandatoryParamsMissing. cbn [issueKey commentId with_noInput].
    destruct (String.eqb_spec (issueKey p0) "") as [Hk0 | Hk0];
      destruct (String.eqb_spec (commentId p0) "") as [Hi0 | Hi0];
      cbn [orb]; run_prims.
    apply identify_tail; cbn; try contradiction.
    intros k c Hk1 Hc1. apply Hb. unfold enters_setBody. cbn.
    rewrite Hni, orb_true_r. repeat split; auto.
  - (* interactive so far *)
    run_prims.
    apply identify_tail; auto.
    intros k c Hk1 Hc1. apply Hb. unfold enters_setBody. cbn.
    rewrite Hni, orb_false_r. repeat split; auto; discriminate.
Qed.

(** ** The gate and the commit step *)

Lemma confirm_quiet p : noInput p = true -> confirm env p = ret tt.
Proof. intros H. unfold confirm. rewrite H. reflexivity. Qed.

Lemma confirm_asks p :
  noInput p = false ->
  confirm env p =
  mkRun [EvAsk getNextAction]
        match answer_of env getNextAction with
        | Err e => inl (ExitError e)
        | Ok a => if a =? ActionCancel then inl (Failed "Action aborted")
                  else inr tt
        end.
Proof.
  intros H. unfold confirm. rewrite H. cbn [negb].
  rewrite survey_Ask_one. unfold bind. cbn [outcome trace].
  destruct (answer_of env getNextAction) as [a | e]; cbn; [| reflexivity].
  destruct (a =? ActionCancel); reflexivity.
Qed.

Lemma confirm_always p :
  always (confirm_event p) (fun _ => True) (confirm env p).
Proof.
  destruct (noInput p) eqn:Hn.
  - rewrite confirm_quiet by assumption. apply always_ret. exact I.
  - rewrite confirm_asks by assumption. split.
    + repeat constructor. assumption.
    + cbn [outcome].
      destruct (answer_of env getNextAction) as [a | e]; [| exact I].
      destruct (a =? ActionCancel); exact I.
Qed.

Lemma commit_always flags p :
  always (commit_event p) (fun _ => True) (commit env flags p).
Proof. unfold commit. run_steps; cbn; auto. Qed.

Lemma commit_calls_update flags p :
  In (EvUpdateIssueComment (issueKey p) (commentId p) (body p) (internal p))
     (trace (commit env flags p)).
Proof.
  unfold commit. apply in_trace_bind_l. cbn. auto.
Qed.

(** ** The whole command, by stretches *)

Lemma update_always flags args (E : Event -> Prop) (Q : addParams -> Prop) :
  always E Q (resolve env flags args) ->
  (forall p ev, Q p -> confirm_event p ev \/ commit_event p ev -> E ev) ->
  always E (fun _ => True) (update env flags args).
Proof.
  intros Hr Hev. unfold update.
  eapply always_call; [exact Hr | auto |].
  intros p Hq. cbv beta.
  eapply always_call; [apply confirm_always | |].
  { intros ev H. apply (Hev p); auto. }
  intros _ _.
  eapply always_mono; [apply commit_always | | auto].
  intros ev H. apply (Hev p); auto.
Qed.

Lemma update_returns flags args :
  outcome (update env flags args) = inr tt ->
  exists p, outcome (resolve env flags args) = inr p /\
            outcome (confirm env p) = inr tt /\
            outcome (commit env flags p) = inr tt.
Proof.
  unfold update. intros H.
  apply outcome_bind_inv in H. destruct H as (p & Hp & H).
  apply outcome_bind_inv in H. destruct H as ([] & Hc & H).
  exists p. auto.
Qed.

Lemma update_returns_updated flags args :
  outcome (update env flags args) = inr tt ->
  exists p, outcome (resolve env flags args) = inr p /\
            In (EvUpdateIssueComment
                  (issueKey p) (commentId p) (body p) (internal p))
               (trace (update env flags args)).
Proof.
  intros H. destruct (update_returns _ _ H) as (p & Hp & Hc & _).
  exists p. split; [exact Hp |].
  unfold update. eapply in_trace_bind_r; [exact Hp |].
  eapply in_trace_bind_r; [exact Hc |].
  apply commit_calls_update.
Qed.

(** ** [setBody] *)

Lemma with_body_same p : with_body p (body p) = p.
Proof. destruct p; reflexivity. Qed.

Lemma setBody_literal p : body p <> "" -> setBody env p = ret (None, p).
Proof.
  intros H. unfold setBody.
  destruct (String.eqb_spec (body p) ""); [contradiction | reflexivity].
Qed.

Lemma editor_always p d :
  body p = "" -> noInput p = false -> editor_default env p d ->
  always (setBody_event env p) (setBody_result env p)
         (r <- survey_Ask env [bodyQuestion d] ;;
          ans <- orExit r ;;
          ret (None, with_body p (field "body" ans))).
Proof.
  intros Hb Hn Hd. run_prim. run_prim.
  { split; [exact Hb |]. split; [exact Hn |]. exists d. auto. }
  destruct (answer_of env (bodyQuestion d)) as [a | e] eqn:Ha; run_prims.
  split; [reflexivity |]. exists a. cbn.
  split; [reflexivity |]. repeat split; intros; try congruence.
  eapply editor_answer_nonempty. exact Ha.
Qed.

Lemma setBody_spec p :
  always (setBody_event env p) (setBody_result env p) (setBody env p).
Proof.
  destruct (String.eqb_spec (body p) "") as [Hb | Hb].
  2:{ rewrite setBody_literal by assumption. apply always_ret.
      split; [reflexivity |]. exists (body p). cbn.
      split; [symmetry; apply with_body_same |].
      repeat split; intros; congruence. }
  assert (Hev : forall has, has = StdinHasData env -> template p = "" ->
                            setBody_event env p (EvStdinHasData has)).
  { intros has -> Ht. split; auto. }
  assert (Hrd : has_source env p = true ->
                setBody_event env p (EvReadFile (template p))).
  { intros Hsrc. split; auto. }
  assert (Hres : forall t,
             noInput p = true ->
             (if has_source env p then ReadFile env (template p) = Ok t
              else t = "") ->
             setBody_result env p (None, with_body p t)).
  { intros t Hn Ht. split; [reflexivity |]. exists t. cbn.
    split; [reflexivity |]. repeat split; intros; congruence. }
  assert (Hfetch :
            noInput p = false -> template p = "" ->
            always (setBody_event env p) (setBody_result env p)
                   (d <- (r <- client_GetIssueComment env (issueKey p) (commentId p) ;;
                          originalComment <- orExit r ;;
                          body_of_comment env originalComment) ;;
                    r <- survey_Ask env [bodyQuestion d] ;;
                    ans <- orExit r ;;
                    ret (None, with_body p (field "body" ans)))).
  { intros Hn Ht. run_prims.
    { split; [exact Hb |]. cbn. auto. }
    destruct (GetIssueComment env (issueKey p) (commentId p)) as [cm | e] eqn:Hg;
      run_prims.
    unfold body_of_comment.
    destruct (Body cm) eqn:Hcm;
      [apply always_ret | apply always_ret | apply always_halt];
      apply editor_always; auto; unfold editor_default; rewrite Ht; cbn;
      exists cm; unfold normalized; rewrite Hcm; auto. }
  assert (Hedit :
            forall d, noInput p = false -> template p <> "" ->
                      ReadFile env (template p) = Ok d ->
            always (setBody_event env p) (setBody_result env p)
                   (r <- survey_Ask env [bodyQuestion d] ;;
                    ans <- orExit r ;;
                    ret (None, with_body p (field "body" ans)))).
  { intros d Hn Ht Hr. apply editor_always; auto. unfold editor_default.
    destruct (String.eqb_spec (template p) ""); [contradiction | exact Hr]. }
  unfold setBody. rewrite Hb. cbn [String.eqb negb].
  unfold has_source in *.
  destruct (String.eqb_spec (template p) "") as [Ht | Ht];
    destruct (StdinHasData env) eqn:Hs;
    destruct (ReadFile env (template p)) as [content | e] eqn:Hr;
    destruct (noInput p) eqn:Hn;
    cbn [negb orb] in *; unfold cmdutil_StdinHasData, cmdutil_ReadFile;
    try rewrite Hs; try rewrite Hr.
  all: repeat first [ apply Hfetch; [reflexivity | assumption]
                    | apply Hedit; [reflexivity | assumption | reflexivity]
                    | run_prim ];
    auto.
Qed.

(** ** The footprint of the command *)

Lemma identify_spec flags args :
  always (fun ev => exists p0,
              outcome (parseArgsAndFlags env args flags) = inr p0 /\
              identify_event env p0 ev)
         (fun p => exists p0,
              outcome (parseArgsAndFlags env args flags) = inr p0 /\
              enters_setBody env p0 p)
         (identify env flags args).
Proof.
  apply identify_always. intros p0 Hp.
  repeat split; intros; cbv beta; exists p0;
    (split; [exact Hp | unfold identify_event; auto 10]).
Qed.

Lemma resolve_spec flags args :
  always (fun ev => exists p0,
              outcome (parseArgsAndFlags env args flags) = inr p0 /\
              resolve_event env p0 ev)
         (fun q => exists p0,
              outcome (parseArgsAndFlags env args flags) = inr p0 /\
              resolve_result env p0 q)
         (resolve env flags args).
Proof.
  unfold resolve.
  eapply always_call; [apply identify_spec | |].
  { intros ev (p0 & Hp & Hev). exists p0. split; [exact Hp |]. left. exact Hev. }
  intros p (p0 & Hp & Hin). cbv beta.
  eapply always_call; [apply setBody_spec | |].
  { intros ev Hev. exists p0. split; [exact Hp |]. right. exists p. auto. }
  intros [[e |] q] Hres; cbn [fst snd]; run_prims.
  exists p0. split; [exact Hp |]. exists p. auto.
Qed.

Lemma update_spec flags args :
  always (fun ev => exists p0,
              outcome (parseArgsAndFlags env args flags) = inr p0 /\
              update_event env p0 ev)
         (fun _ => True)
         (update env flags args).
Proof.
  eapply update_always.
  - eapply always_mono; [apply resolve_spec | | intros q Hq; exact Hq].
    intros ev (p0 & Hp & Hev). exists p0. split; [exact Hp |]. left. exact Hev.
  - intros q ev (p0 & Hp & Hq) Hev. exists p0. split; [exact Hp |].
    right. exists q. auto.
Qed.

Lemma update_event_in flags args p ev :
  outcome (parseArgsAndFlags env args flags) = inr p ->
  In ev (trace (update env flags args)) ->
  update_event env p ev.
Proof.
  intros Hp Hin.
  destruct (always_event ev (update_spec flags args) Hin) as (p0 & Hp0 & Hev).
  congruence.
Qed.

Lemma update_parsed flags args ev :
  In ev (trace (update env flags args)) ->
  exists p, outcome (parseArgsAndFlags env args flags) = inr p.
Proof.
  intros Hin.
  destruct (always_event ev (update_spec flags args) Hin) as (p0 & Hp0 & _).
  exists p0. exact Hp0.
Qed.

(** ** The literal body *)

Lemma literal_resolved p0 q :
  resolve_result env p0 q -> body p0 <> "" -> body q = body p0.
Proof.
  intros (p & Hin & _ & t & Hq & Hlit & _) Hne. cbn in Hq. subst q. cbn.
  destruct Hin as (Hb & _). rewrite <- Hb. apply Hlit. congruence.
Qed.

Lemma literal_skips_setBody p0 p ev :
  enters_setBody env p0 p -> body p0 <> "" -> ~ setBody_event env p ev.
Proof.
  intros (Hb & _) Hne [He _]. congruence.
Qed.

(** C1.  When the third positional argument is a non-empty string [b]:
    [setBody] returns at once and leaves the struct as it is; every remote
    update call of the run carries [b] as its body, whatever the template
    flag, the standard input and the remote comment are; the run reads no
    file and no standard input (no [cmdutil.ReadFile] call at all) and
    fetches no comment; and a run that ends well has made the update call
    with [b]. *)
Theorem literal_body_wins flags args b :
  nth_error args 2 = Some b -> b <> "" ->
  (forall p, body p = b -> setBody env p = ret (None, p)) /\
  (forall k c t i,
     In (EvUpdateIssueComment k c t i) (trace (update env flags args)) ->
     t = b) /\
  (forall path, ~ In (EvReadFile path) (trace (update env flags args))) /\
  (forall k c, ~ In (EvGetIssueComment k c) (trace (update env flags args))) /\
  (outcome (update env flags args) = inr tt ->
   exists k c i,
     In (EvUpdateIssueComment k c b i) (trace (update env flags args))).
Proof.
  intros Hnth Hb.
  assert (Hbody : forall p,
            outcome (parseArgsAndFlags env args flags) = inr p -> body p = b).
  { intros p Hp. rewrite (parse_body _ _ Hp).
    apply nth_error_nth. exact Hnth. }
  assert (Hev : forall ev,
            In ev (trace (update env flags args)) ->
            match ev with
            | EvReadFile _ | EvGetIssueComment _ _ => False
            | EvUpdateIssueComment _ _ t _ => t = b
            | _ => True
            end).
  { intros ev Hin. destruct (update_parsed _ _ _ Hin) as (p0 & Hp0).
    pose proof (Hbody _ Hp0) as Hb0.
    assert (Hne : body p0 <> "") by congruence.
    destruct (update_event_in _ _ ev Hp0 Hin) as [Hr | (q & Hq & Hc)].
    - destruct Hr as [[-> | [-> | [(-> & _) | (-> & _)]]] | (p & Hin' & Hs)];
        try exact I.
      exfalso. exact (literal_skips_setBody Hin' Hne Hs).
    - destruct Hc as [(-> & _) | Hc]; [exact I |].
      destruct ev; cbn in Hc; try contradiction; try exact I.
      destruct Hc as (_ & _ & -> & _).
      rewrite (literal_resolved Hq Hne). exact Hb0. }
  split; [| split; [| split; [| split]]].
  - intros p Hp. apply setBody_literal. congruence.
  - intros k c t i Hin. exact (Hev _ Hin).
  - intros path Hin. exact (Hev _ Hin).
  - intros k c Hin. exact (Hev _ Hin).
  - intros Hok.
    destruct (update_returns_updated _ _ Hok) as (q & Hq & Hin).
    pose proof (Hev _ Hin) as Ht. cbn in Ht. rewrite Ht in Hin. eauto.
Qed.

(** ** Exact runs *)

Lemma run_eta A (r : Run A) : mkRun (trace r) (outcome r) = r.
Proof. destruct r; reflexivity. Qed.

Lemma bind_parse A args flags p (k : addParams -> Run A) :
  outcome (parseArgsAndFlags env args flags) = inr p ->
  bind (parseArgsAndFlags env args flags) k = k p.
Proof.
  intros Hp. rewrite (@bind_returns _ _ _ k p Hp), parse_trace.
  apply run_eta.
Qed.

Lemma update_stretches flags args :
  (exists h, outcome (resolve env flags args) = inl h /\
             update env flags args = mkRun (trace (resolve env flags args)) (inl h)) \/
  (exists p, outcome (resolve env flags args) = inr p /\
     ((exists h, outcome (confirm env p) = inl h /\
                 update env flags args =
                 mkRun (trace (resolve env flags args) ++ trace (confirm env p))%list
                       (inl h)) \/
      (outcome (confirm env p) = inr tt /\
       update env flags args =
       mkRun (trace (resolve env flags args) ++
              trace (confirm env p) ++ trace (commit env flags p))%list
             (outcome (commit env flags p))))).
Proof.
  unfold update.
  destruct (outcome (resolve env flags args)) as [h | p] eqn:Hr.
  - left. exists h. split; [reflexivity |]. apply bind_halts. exact Hr.
  - right. exists p. split; [reflexivity |].
    rewrite (@bind_returns _ _ _ _ p Hr).
    destruct (outcome (confirm env p)) as [h | []] eqn:Hc.
    + left. exists h. split; [reflexivity |].
      rewrite (@bind_halts _ _ _ _ h Hc). reflexivity.
    + right. split; [reflexivity |].
      rewrite (@bind_returns _ _ _ _ tt Hc). reflexivity.
Qed.

(** C2.  When the mode detector fires (standard input has data, or the
    template flag is "-") and the parsed issue key or comment id is empty,
    the run is exactly: build the client, probe standard input, fail with
    the missing-field message.  No remote call, no read of standard input,
    no prompt. *)
Theorem mandatory_guard flags args p :
  outcome (parseArgsAndFlags env args flags) = inr p ->
  StdinHasData env = true \/ template p = "-" ->
  issueKey p = "" \/ commentId p = "" ->
  update env flags args =
  mkRun [EvDefaultClient (debug p); EvStdinHasData (StdinHasData env)]
        (inl (Failed missing_msg)).
Proof.
  intros Hp Hmode Hmiss.
  assert (Hni : (StdinHasData env || (template p =? "-"))%bool = true).
  { destruct Hmode as [-> | ->]; [reflexivity | apply orb_true_r]. }
  assert (Hm : isMandatoryParamsMissing (with_noInput p true) = true).
  { unfold isMandatoryParamsMissing. cbn.
    destruct Hmiss as [-> | ->]; [reflexivity | apply orb_true_r]. }
  unfold update, resolve, identify.
  rewrite (bind_parse _ _ _ Hp).
  unfold isNonInteractive, cmdutil_StdinHasData.
  cbn. rewrite Hni. cbn. rewrite Hm. reflexivity.
Qed.

(** ** The unattended run *)

Lemma enters_has_source p0 p :
  enters_setBody env p0 p -> has_source env p = has_source env p0.
Proof. intros (_ & Ht & _). unfold has_source. rewrite Ht. reflexivity. Qed.

Lemma unattended_resolved p0 q :
  resolve_result env p0 q -> unattended env p0 = true -> body p0 = "" ->
  if has_source env p0 then ReadFile env (template p0) = Ok (body q)
  else body q = "".
Proof.
  intros (p & Hin & _ & t & Hq & _ & Hun & _) Hu Hb. cbn in Hq. subst q. cbn.
  pose proof (enters_has_source Hin) as Hsrc.
  destruct Hin as (Hb' & Ht & _ & _ & Hn & _).
  rewrite <- Hsrc, <- Ht. apply Hun; [congruence |].
  rewrite Hn. exact Hu.
Qed.

Lemma unattended_event p0 p ev :
  enters_setBody env p0 p -> unattended env p0 = true ->
  setBody_event env p ev ->
  match ev with
  | EvStdinHasData _ | EvReadFile _ => True
  | _ => False
  end.
Proof.
  intros (_ & _ & _ & _ & Hn & _) Hu [_ Hev].
  assert (Hn' : noInput p = true) by (rewrite Hn; exact Hu).
  destruct ev; try exact I; try contradiction.
  - destruct Hev as [Hf _]. congruence.
  - destruct Hev as (_ & _ & Hf & _). congruence.
Qed.

Lemma setBody_from_template q content :
  noInput q = true -> body q = "" -> template q <> "" ->
  ReadFile env (template q) = Ok content ->
  setBody env q =
  mkRun [EvReadFile (template q)] (inr (None, with_body q content)).
Proof.
  intros Hn Hb Ht Hr. unfold setBody. rewrite Hb, Hn. cbn [String.eqb negb].
  destruct (String.eqb_spec (template q) ""); [contradiction |].
  cbn [negb]. unfold cmdutil_ReadFile. cbn. rewrite Hr. reflexivity.
Qed.

(** C3.  When [noInput] is on (by the flag, or forced by the mode
    detector), no literal body was given, and the template path is given
    and readable with content [content]: [setBody] reads the template and
    stores its content as the body; every remote update call of the run
    carries exactly [content]; no comment is fetched; and a run that ends
    well has made the update call with [content]. *)
Theorem template_is_body flags args p content :
  outcome (parseArgsAndFlags env args flags) = inr p ->
  unattended env p = true ->
  body p = "" ->
  template p <> "" ->
  ReadFile env (template p) = Ok content ->
  (forall q, noInput q = true -> body q = "" -> template q = template p ->
     setBody env q =
     mkRun [EvReadFile (template p)] (inr (None, with_body q content))) /\
  (forall k c t i,
     In (EvUpdateIssueComment k c t i) (trace (update env flags args)) ->
     t = content) /\
  (forall k c, ~ In (EvGetIssueComment k c) (trace (update env flags args))) /\
  (outcome (update env flags args) = inr tt ->
   exists k c i,
     In (EvUpdateIssueComment k c content i) (trace (update env flags args))).
Proof.
  intros Hp Hu Hb Ht Hr.
  assert (Hsrc : has_source env p = true).
  { unfold has_source. destruct (String.eqb_spec (template p) "");
      [contradiction | reflexivity]. }
  assert (Hev : forall ev,
            In ev (trace (update env flags args)) ->
            match ev with
            | EvGetIssueComment _ _ => False
            | EvUpdateIssueComment _ _ t _ => t = content
            | _ => True
            end).
  { intros ev Hin.
    destruct (update_event_in _ _ ev Hp Hin) as [Hr' | (q & Hq & Hc)].
    - destruct Hr' as [[-> | [-> | [(-> & _) | (-> & _)]]] | (p' & Hin' & Hs)];
        try exact I.
      pose proof (unattended_event Hin' Hu Hs) as Hx.
      destruct ev; try contradiction; exact I.
    - destruct Hc as [(-> & _) | Hc]; [exact I |].
      destruct ev; cbn in Hc; try contradiction; try exact I.
      destruct Hc as (_ & _ & -> & _).
      pose proof (unattended_resolved Hq Hu Hb) as Hx.
      rewrite Hsrc in Hx. congruence. }
  split; [| split; [| split]].
  - intros q Hn Hbq Htq. rewrite <- Htq.
    apply setBody_from_template; auto; congruence.
  - intros k c t i Hin. exact (Hev _ Hin).
  - intros k c Hin. exact (Hev _ Hin).
  - intros Hok.
    destruct (update_returns_updated _ _ Hok) as (q & Hq & Hin).
    pose proof (Hev _ Hin) as Hx. cbn in Hx. rewrite Hx in Hin. eauto.
Qed.

(** C4.  When [noInput] is on by the flag, no literal body was given, no
    template flag was given and standard input has no data, every remote
    update call of the run carries the empty body, and a run that ends well
    has made that call.  Conversely, a [setBody] that returns with an empty
    body was entered with an empty body and [noInput] on, and a remote
    update call with an empty body occurs only in a run whose parsed body
    is empty and whose [noInput] is on, by the flag or forced. *)
Theorem empty_body_only_unattended flags args p :
  outcome (parseArgsAndFlags env args flags) = inr p ->
  noInput p = true ->
  body p = "" ->
  template p = "" ->
  StdinHasData env = false ->
  (forall k c t i,
     In (EvUpdateIssueComment k c t i) (trace (update env flags args)) ->
     t = "") /\
  (outcome (update env flags args) = inr tt ->
   exists k c i,
     In (EvUpdateIssueComment k c "" i) (trace (update env flags args))) /\
  (forall q err q',
     outcome (setBody env q) = inr (err, q') -> body q' = "" ->
     body q = "" /\ noInput q = true /\
     q' = with_body q "") /\
  (forall flags' args' k c i,
     In (EvUpdateIssueComment k c "" i) (trace (update env flags' args')) ->
     exists p',
       outcome (parseArgsAndFlags env args' flags') = inr p' /\
       body p' = "" /\ unattended env p' = true).
Proof.
  intros Hp Hn Hb Ht Hs.
  assert (Hu : unattended env p = true).
  { unfold unattended. rewrite Hn. reflexivity. }
  assert (Hsrc : has_source env p = false).
  { unfold has_source. rewrite Ht, Hs. reflexivity. }
  assert (Hev : forall k c t i,
            In (EvUpdateIssueComment k c t i) (trace (update env flags args)) ->
            t = "").
  { intros k c t i Hin.
    destruct (update_event_in _ _ _ Hp Hin) as [Hr' | (q & Hq & Hc)].
    - destruct Hr' as [[Hx | [Hx | [(Hx & _) | (Hx & _)]]] | (p' & Hin' & Hs')];
        try discriminate.
      exfalso. exact (unattended_event Hin' Hu Hs').
    - destruct Hc as [(Hx & _) | Hc]; [discriminate |].
      cbn in Hc. destruct Hc as (_ & _ & -> & _).
      pose proof (unattended_resolved Hq Hu Hb) as Hx.
      rewrite Hsrc in Hx. exact Hx. }
  assert (Honly : forall q err q',
            outcome (setBody env q) = inr (err, q') -> body q' = "" ->
            body q = "" /\ noInput q = true /\ q' = with_body q "").
  { intros q err q' Hq Hempty.
    destruct (always_value (setBody_spec q) Hq)
      as (_ & t & Hq' & Hlit & _ & Hint).
    cbn in Hq'. subst q'. cbn in Hempty. subst t.
    destruct (String.eqb_spec (body q) "") as [Hbq | Hbq].
    - split; [exact Hbq |]. split; [| reflexivity].
      destruct (noInput q) eqn:Hnq; [reflexivity |].
      exfalso. apply (Hint Hbq eq_refl). reflexivity.
    - exfalso. apply Hbq. symmetry. apply Hlit. exact Hbq. }
  split; [exact Hev |]. split; [| split; [exact Honly |]].
  - intros Hok.
    destruct (update_returns_updated _ _ Hok) as (q & Hq & Hin).
    pose proof (Hev _ _ _ _ Hin) as Hx. rewrite Hx in Hin. eauto.
  - intros flags' args' k c i Hin.
    destruct (update_parsed _ _ _ Hin) as (p' & Hp').
    exists p'. split; [exact Hp' |].
    destruct (update_event_in _ _ _ Hp' Hin) as [Hr' | (q & Hq & Hc)].
    + destruct Hr' as [[Hx | [Hx | [(Hx & _) | (Hx & _)]]] | (p1 & Hin' & Hs')];
        try discriminate.
      destruct Hs' as [_ []].
    + destruct Hc as [(Hx & _) | Hc]; [discriminate |].
      cbn in Hc. destruct Hc as (_ & _ & Hbq & _).
      destruct Hq as (p1 & Hin1 & _ & t & Hq' & Hlit & _ & Hint).
      cbn in Hq'. subst q. cbn in Hbq. subst t.
      destruct Hin1 as (Hb1 & _ & _ & _ & Hn1 & _).
      destruct (String.eqb_spec (body p1) "") as [Hbq | Hbq].
      * split; [congruence |]. unfold unattended. rewrite <- Hn1.
        destruct (noInput p1) eqn:Hnq; [reflexivity |].
        exfalso. apply (Hint Hbq eq_refl). reflexivity.
      * exfalso. apply Hbq. symmetry. apply Hlit. exact Hbq.
Qed.

(** ** The confirmation gate *)

Lemma resolve_no_update flags args k c t i :
  ~ In (EvUpdateIssueComment k c t i) (trace (resolve env flags args)).
Proof.
  intros Hin.
  destruct (always_event _ (resolve_spec flags args) Hin) as (p0 & _ & Hev).
  destruct Hev as [[Hx | [Hx | [(Hx & _) | (Hx & _)]]] | (p & _ & _ & [])];
    discriminate.
Qed.

Lemma resolve_no_navigate flags args server key :
  ~ In (EvNavigate server key) (trace (resolve env flags args)).
Proof.
  intros Hin.
  destruct (always_event _ (resolve_spec flags args) Hin) as (p0 & _ & Hev).
  destruct Hev as [[Hx | [Hx | [(Hx & _) | (Hx & _)]]] | (p & _ & _ & [])];
    discriminate.
Qed.

Lemma update_aborted flags args p a :
  outcome (resolve env flags args) = inr p -> noInput p = false ->
  answer_of env getNextAction = Ok a -> a <> ActionSubmit ->
  update env flags args =
  mkRun (trace (resolve env flags args) ++ [EvAsk getNextAction])%list
        (inl (Failed "Action aborted")).
Proof.
  intros Hr Hn Ha Hne.
  assert (Hc : confirm env p =
               mkRun [EvAsk getNextAction] (inl (Failed "Action aborted"))).
  { rewrite (confirm_asks _ Hn), Ha.
    destruct (action_answer Ha) as [-> | ->]; [contradiction | reflexivity]. }
  unfold update. rewrite (@bind_returns _ _ _ _ p Hr).
  rewrite (@bind_halts _ _ (confirm env p) _ (Failed "Action aborted"));
    rewrite Hc; reflexivity.
Qed.

(** C5.  When body resolution has returned and [noInput] is off, the gate
    asks one question with the two options submit and cancel.  If the
    answer is anything but submit, the run is the resolution followed by
    that question and ends in the failure "Action aborted", and it holds no
    remote update call; so in particular for the answer cancel. *)
Theorem confirmation_gate flags args p :
  outcome (resolve env flags args) = inr p ->
  noInput p = false ->
  prompt getNextAction = Select "What's next?" [ActionSubmit; ActionCancel] /\
  In (EvAsk getNextAction) (trace (update env flags args)) /\
  (forall a,
     answer_of env getNextAction = Ok a -> a <> ActionSubmit ->
     outcome (update env flags args) = inl (Failed "Action aborted") /\
     forall k c t i,
       ~ In (EvUpdateIssueComment k c t i) (trace (update env flags args))) /\
  (answer_of env getNextAction = Ok ActionCancel ->
   outcome (update env flags args) = inl (Failed "Action aborted") /\
   forall k c t i,
     ~ In (EvUpdateIssueComment k c t i) (trace (update env flags args))).
Proof.
  intros Hr Hn.
  assert (Hany : forall a,
            answer_of env getNextAction = Ok a -> a <> ActionSubmit ->
            outcome (update env flags args) = inl (Failed "Action aborted") /\
            forall k c t i,
              ~ In (EvUpdateIssueComment k c t i)
                   (trace (update env flags args))).
  { intros a Ha Hne. rewrite (update_aborted _ _ Hr Hn Ha Hne). cbn.
    split; [reflexivity |]. intros k c t i Hin.
    apply in_app_or in Hin. destruct Hin as [Hin | [Hin | []]].
    - exact (resolve_no_update _ _ _ _ _ _ Hin).
    - discriminate. }
  split; [reflexivity |]. split; [| split; [exact Hany |]].
  - unfold update. eapply in_trace_bind_r; [exact Hr |].
    apply in_trace_bind_l. rewrite (confirm_asks _ Hn). cbn. auto.
  - intros Ha. apply (Hany ActionCancel Ha). discriminate.
Qed.

(** ** Unattended prompts *)

(** C7, as the code has it.  With the no-input flag set: the editor and
    the confirmation are never asked, and the existing comment is never
    fetched; the issue key and the comment id are still asked for, each
    only when its positional argument is missing or empty and only while
    the mode detector has not fired, so that a run given both asks nothing
    at all; and the body of every remote update call is the literal body
    if one was given, else the content read from the template or standard
    input if there is such a source, else empty. *)
Theorem no_input_suppresses flags args p :
  outcome (parseArgsAndFlags env args flags) = inr p ->
  noInput p = true ->
  (forall q,
     In (EvAsk q) (trace (update env flags args)) ->
     nonInteractive env p = false /\
     ((q = issueKeyQuestion /\ issueKey p = "") \/
      (q = commentIdQuestion /\ commentId p = ""))) /\
  (issueKey p <> "" -> commentId p <> "" ->
   forall q, ~ In (EvAsk q) (trace (update env flags args))) /\
  (forall k c, ~ In (EvGetIssueComment k c) (trace (update env flags args))) /\
  (forall k c t i,
     In (EvUpdateIssueComment k c t i) (trace (update env flags args)) ->
     if nonempty (body p) then t = body p
     else if has_source env p then ReadFile env (template p) = Ok t
          else t = "").
Proof.
  intros Hp Hn.
  assert (Hu : unattended env p = true).
  { unfold unattended. rewrite Hn. reflexivity. }
  assert (Hask : forall q,
            In (EvAsk q) (trace (update env flags args)) ->
            nonInteractive env p = false /\
            ((q = issueKeyQuestion /\ issueKey p = "") \/
             (q = commentIdQuestion /\ commentId p = ""))).
  { intros q Hin.
    destruct (update_event_in _ _ _ Hp Hin) as [Hr | (q' & Hq & Hc)].
    - destruct Hr as [[Hx | [Hx | [(Hx & Hk & Hm) | (Hx & Hi & Hm)]]]
                     | (p' & Hin' & Hs)]; try discriminate.
      + injection Hx as ->. auto.
      + injection Hx as ->. auto.
      + exfalso. exact (unattended_event Hin' Hu Hs).
    - destruct Hc as [(_ & Hf) | []]. exfalso.
      destruct Hq as (p1 & Hin1 & _ & t & Hq' & _). cbn in Hq'. subst q'.
      cbn in Hf. destruct Hin1 as (_ & _ & _ & _ & Hn1 & _).
      unfold unattended in Hu. congruence. }
  split; [exact Hask |]. split; [| split].
  - intros Hk Hi q Hin.
    destruct (Hask q Hin) as (_ & [(_ & Hx) | (_ & Hx)]); contradiction.
  - intros k c Hin.
    destruct (update_event_in _ _ _ Hp Hin) as [Hr | (q' & Hq & Hc)].
    + destruct Hr as [[Hx | [Hx | [(Hx & _) | (Hx & _)]]] | (p' & Hin' & Hs)];
        try discriminate.
      exact (unattended_event Hin' Hu Hs).
    + destruct Hc as [(Hx & _) | []]. discriminate.
  - intros k c t i Hin.
    destruct (update_event_in _ _ _ Hp Hin) as [Hr | (q' & Hq & Hc)].
    + destruct Hr as [[Hx | [Hx | [(Hx & _) | (Hx & _)]]] | (p' & Hin' & Hs)];
        try discriminate.
      exfalso. exact (unattended_event Hin' Hu Hs).
    + destruct Hc as [(Hx & _) | Hc]; [discriminate |].
      cbn in Hc. destruct Hc as (_ & _ & -> & _).
      unfold nonempty.
      destruct (String.eqb_spec (body p) "") as [Hb | Hb]; cbn [negb].
      * exact (unattended_resolved Hq Hu Hb).
      * exact (literal_resolved Hq Hb).
Qed.

(** ** The remote prefill *)

Lemma identify_interactive flags args p :
  outcome (identify env flags args) = inr p -> noInput p = false ->
  StdinHasData env = false.
Proof.
  intros Hid Hn.
  destruct (always_value (identify_spec flags args) Hid) as (p0 & _ & Hin).
  destruct Hin as (_ & _ & _ & _ & Hn0 & _).
  rewrite Hn in Hn0. symmetry in Hn0.
  apply orb_false_elim in Hn0. destruct Hn0 as [_ Hni].
  unfold nonInteractive in Hni. apply orb_false_elim in Hni. tauto.
Qed.

Lemma identify_no_editor flags args d :
  ~ In (EvAsk (bodyQuestion d)) (trace (identify env flags args)).
Proof.
  intros Hin.
  destruct (always_event _ (identify_spec flags args) Hin) as (p0 & _ & Hev).
  destruct Hev as [Hx | [Hx | [(Hx & _) | (Hx & _)]]]; discriminate.
Qed.

Lemma setBody_prefill p :
  noInput p = false -> body p = "" -> template p = "" ->
  StdinHasData env = false ->
  let fetched :=
    [EvStdinHasData false; EvGetIssueComment (issueKey p) (commentId p)] in
  setBody env p =
  match GetIssueComment env (issueKey p) (commentId p) with
  | Err e => mkRun fetched (inl (ExitError e))
  | Ok cm =>
      match Body cm with
      | BodyADF adfNode =>
          let d := Translate env adfNode in
          mkRun (fetched ++ [EvAsk (bodyQuestion d)])%list (editor_outcome env p d)
      | BodyString s =>
          let d := FromJiraMD env s in
          mkRun (fetched ++ [EvAsk (bodyQuestion d)])%list (editor_outcome env p d)
      | BodyOther => mkRun fetched (inl Panic)
      end
  end.
Proof.
  intros Hn Hb Ht Hs. unfold setBody, editor_outcome.
  rewrite Hb, Ht, Hn. cbn [String.eqb negb].
  unfold cmdutil_StdinHasData, client_GetIssueComment, body_of_comment.
  rewrite Hs.
  destruct (GetIssueComment env (issueKey p) (commentId p)) as [cm | e];
    [| reflexivity].
  destruct (Body cm) as [adfNode | s |] eqn:Hcm;
    cbn -[survey_Ask answer_of]; rewrite Hcm; cbn -[survey_Ask answer_of];
    try reflexivity;
    rewrite survey_Ask_one; cbn -[answer_of].
  - destruct (answer_of env (bodyQuestion (Translate env adfNode)));
      reflexivity.
  - destruct (answer_of env (bodyQuestion (FromJiraMD env s)));
      reflexivity.
Qed.

Lemma update_setBody_halts flags args p h :
  outcome (identify env flags args) = inr p ->
  outcome (setBody env p) = inl h ->
  update env flags args =
  mkRun (trace (identify env flags args) ++ trace (setBody env p))%list (inl h).
Proof.
  intros Hid Hs. unfold update, resolve.
  rewrite (@bind_returns _ _ _ _ p Hid).
  rewrite (@bind_halts _ _ (setBody env p) _ h Hs).
  reflexivity.
Qed.

Lemma update_setBody_in flags args p ev :
  outcome (identify env flags args) = inr p ->
  In ev (trace (setBody env p)) ->
  In ev (trace (update env flags args)).
Proof.
  intros Hid Hin. unfold update, resolve.
  apply in_trace_bind_l. eapply in_trace_bind_r; [exact Hid |].
  apply in_trace_bind_l. exact Hin.
Qed.

Lemma update_event_split flags args p ev :
  outcome (identify env flags args) = inr p ->
  In ev (trace (update env flags args)) ->
  In ev (trace (identify env flags args)) \/
  In ev (trace (setBody env p)) \/
  exists q, confirm_event q ev \/ commit_event q ev.
Proof.
  intros Hid Hin. unfold update in Hin.
  apply in_trace_bind in Hin. destruct Hin as [Hin | (q & _ & Hin)].
  - unfold resolve in Hin.
    apply in_trace_bind in Hin. destruct Hin as [Hin | (p' & Hp' & Hin)];
      [left; exact Hin |].
    assert (p' = p) by congruence. subst p'.
    apply in_trace_bind in Hin. destruct Hin as [Hin | (r & _ & Hin)];
      [right; left; exact Hin |].
    apply in_trace_bind in Hin. destruct Hin as [Hin | (u & _ & [])].
    destruct (fst r); destruct Hin.
  - right. right. exists q.
    apply in_trace_bind in Hin. destruct Hin as [Hin | (u & _ & Hin)].
    + left. exact (always_event _ (confirm_always q) Hin).
    + right. exact (always_event _ (commit_always flags q) Hin).
Qed.

(** C8.  In the remote-prefill path (key and id resolved, [noInput] off,
    no literal body, no template flag) the run fetches the existing comment
    by the resolved key and id.  If the fetch fails, the run ends there
    with that error.  If it succeeds, the editor is opened on a default
    text [d] exactly when [d] is the body's translation: by the document
    translator for a rich document, by the markup converter for a legacy
    string. *)
Theorem remote_prefill flags args p :
  outcome (identify env flags args) = inr p ->
  noInput p = false ->
  body p = "" ->
  template p = "" ->
  In (EvGetIssueComment (issueKey p) (commentId p))
     (trace (update env flags args)) /\
  (forall e,
     GetIssueComment env (issueKey p) (commentId p) = Err e ->
     update env flags args =
     mkRun (trace (identify env flags args) ++
            [EvStdinHasData false;
             EvGetIssueComment (issueKey p) (commentId p)])%list
           (inl (ExitError e))) /\
  (forall cm,
     GetIssueComment env (issueKey p) (commentId p) = Ok cm ->
     (forall adfNode, Body cm = BodyADF adfNode ->
                      normalized env cm (Translate env adfNode)) /\
     (forall s, Body cm = BodyString s ->
                normalized env cm (FromJiraMD env s)) /\
     (forall d,
        In (EvAsk (bodyQuestion d)) (trace (update env flags args)) <->
        normalized env cm d)).
Proof.
  intros Hid Hn Hb Ht.
  pose proof (identify_interactive _ _ Hid Hn) as Hs.
  pose proof (setBody_prefill _ Hn Hb Ht Hs) as Hrun. cbv zeta in Hrun.
  split; [| split].
  - apply (update_setBody_in _ _ _ Hid). rewrite Hrun.
    destruct (GetIssueComment env (issueKey p) (commentId p)) as [cm | e];
      [destruct (Body cm) |]; cbn; auto.
  - intros e He. rewrite He in Hrun.
    rewrite (@update_setBody_halts _ _ p (ExitError e) Hid);
      rewrite Hrun; reflexivity.
  - intros cm Hcm. rewrite Hcm in Hrun.
    split; [| split].
    + intros adfNode Ha. unfold normalized. rewrite Ha. reflexivity.
    + intros s Hstr. unfold normalized. rewrite Hstr. reflexivity.
    + intros d. unfold normalized. split.
      * intros Hin.
        destruct (update_event_split _ _ _ Hid Hin)
          as [Hi | [Hi | (q & [(Hx & _) | []])]].
        -- exfalso. exact (identify_no_editor _ _ _ Hi).
        -- rewrite Hrun in Hi.
           destruct (Body cm); cbn in Hi;
             destruct Hi as [Hx | [Hx | Hx]]; try discriminate;
             try contradiction;
             destruct Hx as [Hx | []]; injection Hx as <-; reflexivity.
        -- discriminate.
      * intros Hd. apply (update_setBody_in _ _ _ Hid). rewrite Hrun.
        destruct (Body cm); try contradiction; subst d; cbn; auto.
Qed.

(** C10.  In the remote-prefill path, a fetched body that is neither a
    rich document nor a string makes the run end in a panic right after the
    fetch, not in a reported error; the translation of a fetched comment
    panics exactly for such a body and returns a text exactly for a rich
    document or a string. *)
Theorem prefill_panics_on_other_body flags args p cm :
  outcome (identify env flags args) = inr p ->
  noInput p = false ->
  body p = "" ->
  template p = "" ->
  GetIssueComment env (issueKey p) (commentId p) = Ok cm ->
  Body cm = BodyOther ->
  update env flags args =
  mkRun (trace (identify env flags args) ++
         [EvStdinHasData false;
          EvGetIssueComment (issueKey p) (commentId p)])%list
        (inl Panic) /\
  (forall cm',
     outcome (body_of_comment env cm') = inl Panic <-> Body cm' = BodyOther) /\
  (forall cm',
     (exists d, outcome (body_of_comment env cm') = inr d) <->
     ((exists adfNode, Body cm' = BodyADF adfNode) \/
      (exists s, Body cm' = BodyString s))).
Proof.
  intros Hid Hn Hb Ht Hcm Hother.
  pose proof (identify_interactive _ _ Hid Hn) as Hs.
  pose proof (setBody_prefill _ Hn Hb Ht Hs) as Hrun. cbv zeta in Hrun.
  rewrite Hcm, Hother in Hrun.
  split; [| split].
  - rewrite (@update_setBody_halts _ _ p Panic Hid); rewrite Hrun; reflexivity.
  - intros cm'. unfold body_of_comment.
    destruct (Body cm'); cbn; split; intros H; try discriminate; reflexivity.
  - intros cm'. unfold body_of_comment.
    destruct (Body cm') as [a | s |]; cbn; split.
    + intros _. left. eauto.
    + intros _. eauto.
    + intros _. right. eauto.
    + intros _. eauto.
    + intros (d & Hd). discriminate.
    + intros [(a & Ha) | (s & Hs')]; discriminate.
Qed.

(** ** The commit step and the browser *)

Lemma commit_run flags p :
  commit env flags p =
  match UpdateIssueComment env (issueKey p) (commentId p) (body p) (internal p)
  with
  | Some e =>
      mkRun [EvInfo "Adding comment";
             EvUpdateIssueComment (issueKey p) (commentId p) (body p) (internal p);
             EvStop]
            (inl (ExitError e))
  | None =>
      match GetBool flags "web" with
      | Ok true =>
          let server := viper_GetString env "server" in
          mkRun (committed env p ++ [EvNavigate server (issueKey p)])%list
                match Navigate env server (issueKey p) with
                | Some e => inl (ExitError e)
                | None => inr tt
                end
      | _ => mkRun (committed env p) (inr tt)
      end
  end.
Proof.
  unfold commit, committed, client_UpdateIssueComment, cmdutil_Navigate.
  destruct (UpdateIssueComment env (issueKey p) (commentId p) (body p) (internal p));
    [reflexivity |].
  destruct (GetBool flags "web") as [[|] | e]; try reflexivity.
  cbn. destruct (Navigate env (viper_GetString env "server") (issueKey p));
    reflexivity.
Qed.

Lemma confirm_no_navigate p server key :
  ~ In (EvNavigate server key) (trace (confirm env p)).
Proof.
  intros Hin. destruct (always_event _ (confirm_always p) Hin) as [Hx _].
  discriminate.
Qed.

(** C9.  A browser navigation occurs in a run only if the web flag is set
    and the remote update call has returned without error; it is then the
    last event of the run, directly after the update call, the success
    message and the printed deep link, with no navigation before; and the
    run ends well or with the navigation's error, the update having been
    made in either case. *)
Theorem navigation_after_commit flags args server key :
  In (EvNavigate server key) (trace (update env flags args)) ->
  exists p pre,
    outcome (resolve env flags args) = inr p /\
    GetBool flags "web" = Ok true /\
    UpdateIssueComment env (issueKey p) (commentId p) (body p) (internal p)
      = None /\
    server = viper_GetString env "server" /\
    key = issueKey p /\
    trace (update env flags args) =
      (pre ++ committed env p ++ [EvNavigate server key])%list /\
    (forall s k, ~ In (EvNavigate s k) pre) /\
    outcome (update env flags args) =
      match Navigate env server key with
      | Some e => inl (ExitError e)
      | None => inr tt
      end.
Proof.
  intros Hin.
  destruct (update_stretches flags args)
    as [(h & Hr & Hu) | (p & Hr & [(h & Hc & Hu) | (Hc & Hu)])];
    rewrite Hu in Hin |- *; cbn [trace outcome] in *.
  - exfalso. exact (resolve_no_navigate _ _ _ _ Hin).
  - exfalso. apply in_app_or in Hin. destruct Hin as [Hin | Hin].
    + exact (resolve_no_navigate _ _ _ _ Hin).
    + exact (confirm_no_navigate _ _ _ Hin).
  - assert (Hcm : In (EvNavigate server key) (trace (commit env flags p))).
    { apply in_app_or in Hin. destruct Hin as [Hin | Hin].
      - exfalso. exact (resolve_no_navigate _ _ _ _ Hin).
      - apply in_app_or in Hin. destruct Hin as [Hin | Hin]; [| exact Hin].
        exfalso. exact (confirm_no_navigate _ _ _ Hin). }
    rewrite commit_run in Hcm |- *.
    destruct (UpdateIssueComment env (issueKey p) (commentId p) (body p)
                                 (internal p)) as [e |] eqn:Hup.
    { cbn in Hcm. repeat (destruct Hcm as [Hcm | Hcm]; try discriminate).
      contradiction. }
    assert (Hnot : ~ In (EvNavigate server key) (committed env p)).
    { unfold committed. cbn. intros H.
      repeat (destruct H as [H | H]; try discriminate). contradiction. }
    destruct (GetBool flags "web") as [[|] | e] eqn:Hweb;
      cbv zeta in *; cbn [trace outcome] in *;
      try contradiction.
    apply in_app_or in Hcm. destruct Hcm as [Hcm | [Hcm | []]];
      [contradiction |].
    injection Hcm as <- <-.
    exists p, (trace (resolve env flags args) ++ trace (confirm env p))%list.
    repeat split; try reflexivity; try assumption.
    + rewrite <- app_assoc. reflexivity.
    + intros s k H. apply in_app_or in H. destruct H as [H | H].
      * exact (resolve_no_navigate _ _ _ _ H).
      * exact (confirm_no_navigate _ _ _ H).
Qed.

(** ** The scenario with three arguments and the internal flag *)

Lemma confirm_no_update p k c t i :
  ~ In (EvUpdateIssueComment k c t i) (trace (confirm env p)).
Proof.
  intros Hin. destruct (always_event _ (confirm_always p) Hin) as [Hx _].
  discriminate.
Qed.

Lemma commit_no_ask flags p q : ~ In (EvAsk q) (trace (commit env flags p)).
Proof.
  intros Hin. exact (always_event _ (commit_always flags p) Hin).
Qed.

(** C6, as the code has it.  For the arguments 12, 1001, "fixed typo",
    default project PROJ (so that the key expands to PROJ-12), the internal
    flag set, nothing piped and no template flag: resolution asks nothing
    and yields key PROJ-12, id 1001, body "fixed typo", internal.  With the
    no-input flag also set, the remote update is called with these four
    values and no prompt is issued.  Without it, the confirmation is the
    one and only prompt, and the remote update is called with these four
    values exactly when the answer is submit. *)
Theorem scenario_literal_internal flags d ni :
  viper_GetString env "project.key" = "PROJ" ->
  GetJiraIssueKey env "PROJ" "12" = "PROJ-12" ->
  StdinHasData env = false ->
  GetBool flags "debug" = Ok d ->
  GetString flags "template" = Ok "" ->
  GetBool flags "no-input" = Ok ni ->
  GetBool flags "internal" = Ok true ->
  let args := ["12"; "1001"; "fixed typo"] in
  let call := EvUpdateIssueComment "PROJ-12" "1001" "fixed typo" true in
  resolve env flags args =
    mkRun [EvDefaultClient d; EvStdinHasData false]
          (inr (mkParams "PROJ-12" "1001" "fixed typo" "" ni true d)) /\
  (ni = true ->
   In call (trace (update env flags args)) /\
   forall q, ~ In (EvAsk q) (trace (update env flags args))) /\
  (ni = false ->
   (forall q, In (EvAsk q) (trace (update env flags args)) <->
              q = getNextAction) /\
   (In call (trace (update env flags args)) <->
    answer_of env getNextAction = Ok ActionSubmit)).
Proof.
  intros Hproj Hkey Hstdin Hd Ht Hni Hint args call.
  set (p := mkParams "PROJ-12" "1001" "fixed typo" "" ni true d).
  assert (Hres : resolve env flags args =
                 mkRun [EvDefaultClient d; EvStdinHasData false] (inr p)).
  { unfold resolve, identify.
    rewrite (parse_ok args _ Hd Ht Hni Hint). cbn [length Nat.leb nth args].
    rewrite Hproj, Hkey.
    unfold isNonInteractive, cmdutil_StdinHasData. rewrite Hstdin.
    reflexivity. }
  assert (Hout : outcome (resolve env flags args) = inr p)
    by (rewrite Hres; reflexivity).
  assert (Hcall : In call (trace (commit env flags p))).
  { exact (commit_calls_update flags p). }
  split; [exact Hres |]. split.
  - intros ->.
    assert (Hc : confirm env p = ret tt) by (apply confirm_quiet; reflexivity).
    split.
    + unfold update. eapply in_trace_bind_r; [exact Hout |].
      eapply in_trace_bind_r; [rewrite Hc; reflexivity | exact Hcall].
    + intros q Hin. unfold update in Hin.
      apply in_trace_bind in Hin. destruct Hin as [Hin | (p' & Hp' & Hin)].
      * rewrite Hres in Hin. cbn in Hin.
        destruct Hin as [Hx | [Hx | []]]; discriminate.
      * assert (p' = p) by congruence. subst p'.
        apply in_trace_bind in Hin. destruct Hin as [Hin | (u & _ & Hin)].
        -- rewrite Hc in Hin. destruct Hin.
        -- exact (commit_no_ask Hin).
  - intros ->.
    assert (Hc : confirm env p =
                 mkRun [EvAsk getNextAction]
                       match answer_of env getNextAction with
                       | Err e => inl (ExitError e)
                       | Ok a => if a =? ActionCancel
                                 then inl (Failed "Action aborted")
                                 else inr tt
                       end)
      by (apply confirm_asks; reflexivity).
    split.
    + intros q. split.
      * intros Hin. unfold update in Hin.
        apply in_trace_bind in Hin. destruct Hin as [Hin | (p' & Hp' & Hin)].
        -- rewrite Hres in Hin. cbn in Hin.
           destruct Hin as [Hx | [Hx | []]]; discriminate.
        -- assert (p' = p) by congruence. subst p'.
           apply in_trace_bind in Hin. destruct Hin as [Hin | (u & _ & Hin)].
           ++ rewrite Hc in Hin. cbn in Hin. destruct Hin as [Hx | []].
              injection Hx as <-. reflexivity.
           ++ exfalso. exact (commit_no_ask Hin).
      * intros ->. unfold update. eapply in_trace_bind_r; [exact Hout |].
        apply in_trace_bind_l. rewrite Hc. cbn. auto.
    + split.
      * intros Hin. unfold update in Hin.
        apply in_trace_bind in Hin. destruct Hin as [Hin | (p' & Hp' & Hin)].
        -- rewrite Hres in Hin. cbn in Hin.
           destruct Hin as [Hx | [Hx | []]]; discriminate.
        -- assert (p' = p) by congruence. subst p'.
           apply in_trace_bind in Hin.
           destruct Hin as [Hin | (u & Hu & Hin)].
           ++ exfalso. exact (confirm_no_update _ _ _ _ _ Hin).
           ++ rewrite Hc in Hu. cbn [outcome] in Hu.
              destruct (answer_of env getNextAction) as [a |] eqn:Ha;
                [| discriminate].
              destruct (action_answer Ha) as [-> | ->];
                [reflexivity | discriminate].
      * intros Ha. unfold update. eapply in_trace_bind_r; [exact Hout |].
        eapply in_trace_bind_r; [| exact Hcall].
        rewrite Hc, Ha. reflexivity.
Qed.

End Facts.

(** ** Concrete runs *)

Lemma literal_body_wins_witness :
  nth_error ["PROJ-1"; "1001"; "from arg"] 2 = Some "from arg" /\
  "from arg" <> "" /\
  forall k c t i,
    In (EvUpdateIssueComment k c t i)
       (trace (update quiet_env (sample_flags "body.tmpl" true false false)
                      ["PROJ-1"; "1001"; "from arg"])) ->
    t = "from arg".
Proof.
  split; [reflexivity |]. split; [discriminate |].
  assert (Hne : "from arg" <> "") by discriminate.
  destruct (@literal_body_wins unit quiet_env
              (sample_flags "body.tmpl" true false false)
              ["PROJ-1"; "1001"; "from arg"] "from arg" eq_refl Hne)
    as (_ & H & _).
  exact H.
Defined.

Lemma mandatory_guard_witness :
  outcome (parseArgsAndFlags piped_env [] (sample_flags "-" false false false))
    = inr (mkParams "" "" "" "-" false false false) /\
  (StdinHasData piped_env = true \/ "-" = "-") /\
  ("" = "" \/ "" = "") /\
  update piped_env (sample_flags "-" false false false) [] =
  mkRun [EvDefaultClient false; EvStdinHasData true]
        (inl (Failed missing_msg)).
Proof.
  split; [reflexivity |]. split; [left; reflexivity |].
  split; [left; reflexivity |].
  exact (@mandatory_guard unit piped_env (sample_flags "-" false false false)
           [] (mkParams "" "" "" "-" false false false)
           eq_refl (or_introl eq_refl) (or_introl eq_refl)).
Defined.

Lemma template_is_body_witness :
  outcome (parseArgsAndFlags quiet_env ["PROJ-1"; "1001"]
             (sample_flags "body.tmpl" true false false))
    = inr (mkParams "PROJ-1" "1001" "" "body.tmpl" true false false) /\
  unattended quiet_env
    (mkParams "PROJ-1" "1001" "" "body.tmpl" true false false) = true /\
  "" = "" /\
  "body.tmpl" <> "" /\
  ReadFile quiet_env "body.tmpl" = Ok "from file" /\
  forall k c t i,
    In (EvUpdateIssueComment k c t i)
       (trace (update quiet_env (sample_flags "body.tmpl" true false false)
                      ["PROJ-1"; "1001"])) ->
    t = "from file".
Proof.
  split; [reflexivity |]. split; [reflexivity |]. split; [reflexivity |].
  split; [discriminate |]. split; [reflexivity |].
  assert (Hne : "body.tmpl" <> "") by discriminate.
  destruct (@template_is_body unit quiet_env
              (sample_flags "body.tmpl" true false false)
              ["PROJ-1"; "1001"]
              (mkParams "PROJ-1" "1001" "" "body.tmpl" true false false)
              "from file" eq_refl eq_refl eq_refl Hne eq_refl)
    as (_ & H & _).
  exact H.
Defined.

Lemma empty_body_only_unattended_witness :
  outcome (parseArgsAndFlags quiet_env ["PROJ-1"; "1001"]
             (sample_flags "" true false false))
    = inr (mkParams "PROJ-1" "1001" "" "" true false false) /\
  true = true /\ "" = "" /\ "" = "" /\ StdinHasData quiet_env = false /\
  forall k c t i,
    In (EvUpdateIssueComment k c t i)
       (trace (update quiet_env (sample_flags "" true false false)
                      ["PROJ-1"; "1001"])) ->
    t = "".
Proof.
  repeat (split; [reflexivity |]).
  destruct (@empty_body_only_unattended unit quiet_env
              (sample_flags "" true false false) ["PROJ-1"; "1001"]
              (mkParams "PROJ-1" "1001" "" "" true false false)
              eq_refl eq_refl eq_refl eq_refl eq_refl)
    as (H & _).
  exact H.
Defined.

Lemma confirmation_gate_witness :
  outcome (resolve cancelling_env (sample_flags "" false false false)
                   ["PROJ-1"; "1001"; "text"])
    = inr (mkParams "PROJ-1" "1001" "text" "" false false false) /\
  false = false /\
  (answer_of cancelling_env getNextAction = Ok ActionCancel ->
   outcome (update cancelling_env (sample_flags "" false false false)
                   ["PROJ-1"; "1001"; "text"])
     = inl (Failed "Action aborted") /\
   forall k c t i,
     ~ In (EvUpdateIssueComment k c t i)
          (trace (update cancelling_env (sample_flags "" false false false)
                         ["PROJ-1"; "1001"; "text"]))).
Proof.
  split; [reflexivity |]. split; [reflexivity |].
  destruct (@confirmation_gate unit cancelling_env
              (sample_flags "" false false false) ["PROJ-1"; "1001"; "text"]
              (mkParams "PROJ-1" "1001" "text" "" false false false)
              eq_refl eq_refl)
    as (_ & _ & _ & H).
  exact H.
Defined.

(** C6, as the spec states it, fails: without the no-input flag the gate
    asks, and on cancel the remote update is not called. *)
Lemma scenario_asks_confirmation :
  viper_GetString cancelling_env "project.key" = "PROJ" /\
  GetJiraIssueKey cancelling_env "PROJ" "12" = "PROJ-12" /\
  StdinHasData cancelling_env = false /\
  GetString (sample_flags "" false true false) "template" = Ok "" /\
  GetBool (sample_flags "" false true false) "internal" = Ok true /\
  update cancelling_env (sample_flags "" false true false)
         ["12"; "1001"; "fixed typo"] =
  mkRun [EvDefaultClient false; EvStdinHasData false; EvAsk getNextAction]
        (inl (Failed "Action aborted")) /\
  ~ ((exists pre post,
        trace (update cancelling_env (sample_flags "" false true false)
                      ["12"; "1001"; "fixed typo"]) =
        (pre ++ EvUpdateIssueComment "PROJ-12" "1001" "fixed typo" true
             :: post)%list) /\
     forall q,
       ~ In (EvAsk q)
            (trace (update cancelling_env (sample_flags "" false true false)
                           ["12"; "1001"; "fixed typo"]))).
Proof.
  repeat (split; [reflexivity |]).
  intros [_ H]. apply (H getNextAction). vm_compute. tauto.
Qed.

Lemma scenario_literal_internal_witness :
  viper_GetString quiet_env "project.key" = "PROJ" /\
  GetJiraIssueKey quiet_env "PROJ" "12" = "PROJ-12" /\
  StdinHasData quiet_env = false /\
  GetBool (sample_flags "" true true false) "debug" = Ok false /\
  GetString (sample_flags "" true true false) "template" = Ok "" /\
  GetBool (sample_flags "" true true false) "no-input" = Ok true /\
  GetBool (sample_flags "" true true false) "internal" = Ok true /\
  resolve quiet_env (sample_flags "" true true false)
          ["12"; "1001"; "fixed typo"] =
  mkRun [EvDefaultClient false; EvStdinHasData false]
        (inr (mkParams "PROJ-12" "1001" "fixed typo" "" true true false)).
Proof.
  repeat (split; [reflexivity |]).
  destruct (@scenario_literal_internal unit quiet_env
              (sample_flags "" true true false) false true
              eq_refl eq_refl eq_refl eq_refl eq_refl eq_refl eq_refl)
    as (H & _).
  exact H.
Defined.

(** C7, as the spec states it, fails: with the no-input flag set and no
    positional arguments, the issue key and the comment id are asked for. *)
Lemma no_input_still_asks :
  GetBool (sample_flags "" true false false) "no-input" = Ok true /\
  update typing_env (sample_flags "" true false false) [] =
  mkRun [ EvDefaultClient false; EvStdinHasData false;
          EvAsk issueKeyQuestion; EvAsk commentIdQuestion;
          EvStdinHasData false;
          EvInfo "Adding comment";
          EvUpdateIssueComment "PROJ-7" "1001" "" false;
          EvStop;
          EvSuccess "Comment %q of issue %q updated" ["1001"; "PROJ-7"];
          EvPrintf ("https://jira.example.com/browse/PROJ-7?focusedCommentId=1001"
                    ++ newline) ]
        (inr tt) /\
  ~ (forall q,
       ~ In (EvAsk q)
            (trace (update typing_env (sample_flags "" true false false) []))).
Proof.
  split; [reflexivity |]. split; [reflexivity |].
  intros H. apply (H issueKeyQuestion). vm_compute. tauto.
Qed.

Lemma no_input_suppresses_witness :
  outcome (parseArgsAndFlags quiet_env ["PROJ-1"; "1001"]
             (sample_flags "body.tmpl" true false false))
    = inr (mkParams "PROJ-1" "1001" "" "body.tmpl" true false false) /\
  true = true /\
  ("PROJ-1" <> "" -> "1001" <> "" ->
   forall q,
     ~ In (EvAsk q)
          (trace (update quiet_env (sample_flags "body.tmpl" true false false)
                         ["PROJ-1"; "1001"]))).
Proof.
  split; [reflexivity |]. split; [reflexivity |].
  destruct (@no_input_suppresses unit quiet_env
              (sample_flags "body.tmpl" true false false) ["PROJ-1"; "1001"]
              (mkParams "PROJ-1" "1001" "" "body.tmpl" true false false)
              eq_refl eq_refl)
    as (_ & H & _).
  exact H.
Defined.

Lemma remote_prefill_witness :
  outcome (identify quiet_env (sample_flags "" false false false)
                    ["PROJ-1"; "1001"])
    = inr (mkParams "PROJ-1" "1001" "" "" false false false) /\
  false = false /\ "" = "" /\ "" = "" /\
  In (EvGetIssueComment "PROJ-1" "1001")
     (trace (update quiet_env (sample_flags "" false false false)
                    ["PROJ-1"; "1001"])).
Proof.
  repeat (split; [reflexivity |]).
  destruct (@remote_prefill unit quiet_env
              (sample_flags "" false false false) ["PROJ-1"; "1001"]
              (mkParams "PROJ-1" "1001" "" "" false false false)
              eq_refl eq_refl eq_refl eq_refl)
    as (H & _).
  exact H.
Defined.

Lemma navigation_after_commit_witness :
  In (EvNavigate "https://jira.example.com" "PROJ-1")
     (trace (update quiet_env (sample_flags "" true false true)
                    ["PROJ-1"; "1001"; "text"])) /\
  exists p pre,
    outcome (resolve quiet_env (sample_flags "" true false true)
                     ["PROJ-1"; "1001"; "text"]) = inr p /\
    trace (update quiet_env (sample_flags "" true false true)
                  ["PROJ-1"; "1001"; "text"]) =
    (pre ++ committed quiet_env p
         ++ [EvNavigate "https://jira.example.com" "PROJ-1"])%list.
Proof.
  assert (Hin : In (EvNavigate "https://jira.example.com" "PROJ-1")
                   (trace (update quiet_env (sample_flags "" true false true)
                                  ["PROJ-1"; "1001"; "text"]))).
  { vm_compute. tauto. }
  split; [exact Hin |].
  destruct (@navigation_after_commit unit quiet_env
              (sample_flags "" true false true) ["PROJ-1"; "1001"; "text"]
              "https://jira.example.com" "PROJ-1" Hin)
    as (p & pre & Hr & _ & _ & _ & _ & Ht & _).
  exists p, pre. split; [exact Hr | exact Ht].
Defined.

Lemma prefill_panics_on_other_body_witness :
  outcome (identify odd_env (sample_flags "" false false false)
                    ["PROJ-1"; "1001"])
    = inr (mkParams "PROJ-1" "1001" "" "" false false false) /\
  false = false /\ "" = "" /\ "" = "" /\
  GetIssueComment odd_env "PROJ-1" "1001" = Ok (mkComment BodyOther) /\
  Body (mkComment (@BodyOther unit)) = BodyOther /\
  update odd_env (sample_flags "" false false false) ["PROJ-1"; "1001"] =
  mkRun [EvDefaultClient false; EvStdinHasData false;
         EvStdinHasData false; EvGetIssueComment "PROJ-1" "1001"]
        (inl Panic).
Proof.
  repeat (split; [reflexivity |]).
  destruct (@prefill_panics_on_other_body unit odd_env
              (sample_flags "" false false false) ["PROJ-1"; "1001"]
              (mkParams "PROJ-1" "1001" "" "" false false false)
              (mkComment BodyOther)
              eq_refl eq_refl eq_refl eq_refl eq_refl eq_refl)
    as (H & _).
  exact H.
Defined.

(** * Further properties of the command *)

Lemma halts_ret A (H : Halt -> Prop) (a : A) : halts_only H (ret a).
Proof. intros h Hh. discriminate. Qed.

Lemma halts_emit (H : Halt -> Prop) ev : halts_only H (emit ev).
Proof. intros h Hh. discriminate. Qed.

Lemma halts_halt A (H : Halt -> Prop) h : H h -> halts_only H (@halt A h).
Proof. intros Hh h' Heq. injection Heq as <-. exact Hh. Qed.

Lemma halts_returns A (H : Halt -> Prop) (m : Run A) a :
  outcome m = inr a -> halts_only H m.
Proof. intros Ha h Hh. congruence. Qed.

Lemma halts_bind A B (H : Halt -> Prop) (m : Run A) (k : A -> Run B) :
  halts_only H m ->
  (forall a, outcome m = inr a -> halts_only H (k a)) ->
  halts_only H (bind m k).
Proof.
  intros Hm Hk h. unfold bind.
  destruct (outcome m) as [h' | a] eqn:Ho; cbn.
  - intros Heq. injection Heq as <-. apply Hm. exact Ho.
  - apply (Hk a eq_refl).
Qed.

Lemma halts_bind_value A B (H : Halt -> Prop) (m : Run A) (k : A -> Run B) v :
  outcome m = inr v -> halts_only H (k v) -> halts_only H (bind m k).
Proof.
  intros Hv Hk. apply halts_bind.
  - exact (halts_returns H m Hv).
  - intros a Ha. assert (a = v) by congruence. subst a. exact Hk.
Qed.

Section MoreFacts.

Variable ADF : Type.
Variable env : Env ADF.

(** ** Exact runs of the two input methods *)

Lemma setIssueKey_run p :
  setIssueKey env p =
  if issueKey p =? "" then
    mkRun [EvAsk issueKeyQuestion]
          (inr match answer_of env issueKeyQuestion with
               | Ok a =>
                   (None,
                    with_issueKey p
                      (GetJiraIssueKey env (viper_GetString env "project.key") a))
               | Err e => (Some e, p)
               end)
  else ret (None, p).
Proof.
  unfold setIssueKey. destruct (issueKey p =? ""); cbn [negb]; [| reflexivity].
  rewrite survey_Ask_one. unfold bind. cbn [outcome trace].
  destruct (answer_of env issueKeyQuestion); reflexivity.
Qed.

Lemma setCommentId_run p :
  setCommentId env p =
  if commentId p =? "" then
    mkRun [EvAsk commentIdQuestion]
          (inr match answer_of env commentIdQuestion with
               | Ok a => (None, with_commentId p a)
               | Err e => (Some e, p)
               end)
  else ret (None, p).
Proof.
  unfold setCommentId. destruct (commentId p =? ""); cbn [negb]; [| reflexivity].
  rewrite survey_Ask_one. unfold bind. cbn [outcome trace].
  destruct (answer_of env commentIdQuestion); reflexivity.
Qed.

(** ** Early ends *)

Ltac halt_step :=
  cbv beta iota;
  lazymatch goal with
  | |- halts_only _ (bind (survey_Ask _ [_]) _) =>
      rewrite survey_Ask_one; eapply halts_bind_value; [reflexivity |]
  | |- halts_only _ (bind (survey_Ask _ []) _) =>
      eapply halts_bind_value; [reflexivity |]
  | |- halts_only _ (bind (emit _) _) =>
      eapply halts_bind_value; [reflexivity |]
  | |- halts_only _ (bind (ret _) _) =>
      eapply halts_bind_value; [reflexivity |]
  | |- halts_only _ (bind (cmdutil_ExitIfError None) _) =>
      eapply halts_bind_value; [reflexivity |]
  | |- halts_only _ (bind (cmdutil_StdinHasData _) _) =>
      eapply halts_bind_value; [reflexivity |]
  | |- halts_only _ (bind (cmdutil_ReadFile _ _) _) =>
      eapply halts_bind_value; [reflexivity |]
  | |- halts_only _ (bind (client_GetIssueComment _ _ _) _) =>
      eapply halts_bind_value; [reflexivity |]
  | |- halts_only _ (bind (client_UpdateIssueComment _ _ _ _ _) _) =>
      eapply halts_bind_value; [reflexivity |]
  | |- halts_only _ (bind (cmdutil_Navigate _ _ _) _) =>
      eapply halts_bind_value; [reflexivity |]
  | |- halts_only _ (bind (orExit (match ?x with _ => _ end)) _) =>
      destruct x eqn:?
  | |- halts_only _ (bind (orExit (Ok _)) _) =>
      eapply halts_bind_value; [reflexivity |]
  | |- halts_only _ (bind (orExit (Err _)) _) =>
      apply halts_bind; [apply halts_halt | intros ? ?; discriminate]
  | |- halts_only _ (bind (orExit ?r) _) => destruct r eqn:?
  | |- halts_only _ (bind _ _) =>
      apply halts_bind; [| intros ? ?; try discriminate]
  | |- halts_only _ (cmdutil_StdinHasData _) =>
      eapply halts_returns; reflexivity
  | |- halts_only _ (ret _) => apply halts_ret
  | |- halts_only _ (emit _) => apply halts_emit
  | |- halts_only _ (halt _) => apply halts_halt
  | |- halts_only _ (cmdutil_Failed _) => apply halts_halt
  | |- halts_only _ (cmdutil_ExitIfError None) => apply halts_ret
  | |- halts_only _ (cmdutil_ExitIfError (Some _)) => apply halts_halt
  | |- halts_only _ (cmdutil_ExitIfError ?e) =>
      destruct e eqn:?; [apply halts_halt | apply halts_ret]
  | |- halts_only _ (orExit (match ?x with _ => _ end)) => destruct x eqn:?
  | |- halts_only _ (orExit (Ok _)) => apply halts_ret
  | |- halts_only _ (orExit (Err _)) => apply halts_halt
  | |- halts_only _ (orExit ?r) =>
      destruct r eqn:?; [apply halts_ret | apply halts_halt]
  | |- halts_only _ (body_of_comment _ ?c) =>
      unfold body_of_comment; destruct (Body c) eqn:?
  | |- halts_only _ (if ?c then _ else _) => destruct c eqn:?
  | |- halts_only _ (match ?c with _ => _ end) => destruct c eqn:?
  end.

Lemma parse_halts flags args :
  halts_only (update_halt env flags) (parseArgsAndFlags env args flags).
Proof.
  unfold parseArgsAndFlags. repeat halt_step; cbn; auto 10.
Qed.

Lemma identify_halts flags args :
  halts_only (update_halt env flags) (identify env flags args).
Proof.
  assert (Hid : forall p',
            halts_only (update_halt env flags)
              (r <- setCommentId env p' ;;
               cmdutil_ExitIfError (fst r) ;;;
               ret (snd r))).
  { intros p'. rewrite setCommentId_run.
    destruct (commentId p' =? "");
      (eapply halts_bind_value; [reflexivity |]).
    - destruct (answer_of env commentIdQuestion) as [ans | err] eqn:Ha;
        cbn [fst snd]; repeat halt_step. cbn. eauto 10.
    - cbn [fst snd]. repeat halt_step. }
  assert (Hids : forall p,
            halts_only (update_halt env flags)
              (r <- setIssueKey env p ;;
               cmdutil_ExitIfError (fst r) ;;;
               r <- setCommentId env (snd r) ;;
               cmdutil_ExitIfError (fst r) ;;;
               ret (snd r))).
  { intros p. rewrite setIssueKey_run.
    destruct (issueKey p =? "");
      (eapply halts_bind_value; [reflexivity |]).
    - destruct (answer_of env issueKeyQuestion) as [ans | err] eqn:Ha;
        cbn [fst snd].
      + halt_step. apply Hid.
      + repeat halt_step. cbn. eauto 10.
    - cbn [fst snd]. halt_step. apply Hid. }
  unfold identify. apply halts_bind; [apply parse_halts |]. intros p0 _.
  unfold isNonInteractive. halt_step.
  eapply halts_bind_value; [reflexivity |].
  destruct (StdinHasData env || (template p0 =? "-"))%bool.
  - destruct (isMandatoryParamsMissing (with_noInput p0 true)).
    + apply halts_bind; [| intros ? Hx; discriminate].
      repeat halt_step. cbn. auto.
    + eapply halts_bind_value; [reflexivity |]. apply Hids.
  - eapply halts_bind_value; [reflexivity |]. apply Hids.
Qed.

Lemma setBody_halts flags p :
  halts_only (update_halt env flags) (setBody env p).
Proof.
  unfold setBody. destruct (body p =? ""); cbn [negb]; [| apply halts_ret].
  repeat halt_step; cbn; eauto 12.
Qed.

Lemma confirm_halts flags p :
  halts_only (update_halt env flags) (confirm env p).
Proof.
  unfold confirm. repeat halt_step; cbn; eauto 12.
Qed.

Lemma commit_halts flags p :
  halts_only (update_halt env flags) (commit env flags p).
Proof.
  unfold commit. eapply halts_bind_value; [reflexivity |].
  repeat halt_step; cbn; eauto 12.
Qed.

Lemma update_halts flags args :
  halts_only (update_halt env flags) (update env flags args).
Proof.
  unfold update, resolve.
  apply halts_bind.
  - apply halts_bind; [apply identify_halts |]. intros p _.
    apply halts_bind; [apply setBody_halts |]. intros r Hr.
    (* [setBody] never returns an error *)
    destruct (always_value (@setBody_spec ADF env p) Hr) as [Hnone _].
    rewrite Hnone. repeat halt_step.
  - intros q _. apply halts_bind; [apply confirm_halts |]. intros _ _.
    apply commit_halts.
Qed.

(** ** Flags and arguments *)

(** X1.  When a flag getter fails in [parseArgsAndFlags], the run ends at
    once with that error, before the client is built and before anything is
    probed, asked or sent; the error is that of the first getter to fail,
    in the order debug, template, no-input, internal. *)
Theorem flag_error_ends_run flags args h :
  outcome (parseArgsAndFlags env args flags) = inl h ->
  update env flags args = mkRun [] (inl h) /\
  exists e,
    h = ExitError e /\
    (GetBool flags "debug" = Err e \/
     (exists d, GetBool flags "debug" = Ok d /\
                GetString flags "template" = Err e) \/
     (exists d t, GetBool flags "debug" = Ok d /\
                  GetString flags "template" = Ok t /\
                  GetBool flags "no-input" = Err e) \/
     (exists d t n, GetBool flags "debug" = Ok d /\
                    GetString flags "template" = Ok t /\
                    GetBool flags "no-input" = Ok n /\
                    GetBool flags "internal" = Err e)).
Proof.
  intros Hp. split.
  - unfold update, resolve, identify.
    rewrite (@bind_halts _ _ (parseArgsAndFlags env args flags) _ h Hp).
    rewrite parse_trace. reflexivity.
  - revert Hp. unfold parseArgsAndFlags.
    destruct (GetBool flags "debug") as [d | e1]; cbn.
    2:{ intros H. injection H as <-. eauto. }
    destruct (GetString flags "template") as [t | e2]; cbn.
    2:{ intros H. injection H as <-. eauto 10. }
    destruct (GetBool flags "no-input") as [n | e3]; cbn.
    2:{ intros H. injection H as <-. exists e3. split; [reflexivity |].
        right. right. left. eauto. }
    destruct (GetBool flags "internal") as [i | e4]; cbn.
    2:{ intros H. injection H as <-. exists e4. split; [reflexivity |].
        right. right. right. eauto 10. }
    discriminate.
Qed.

(** X2.  Positional arguments after the third are ignored: the run is the
    same as with the first three alone. *)
Theorem extra_arguments_ignored flags a b c rest :
  update env flags (a :: b :: c :: rest) = update env flags [a; b; c].
Proof.
  unfold update, resolve, identify, parseArgsAndFlags. reflexivity.
Qed.

(** ** Early ends of the run *)

(** X3.  The run panics only if some comment on the server has a body that
    is neither a rich document nor a string. *)
Theorem panic_needs_odd_body flags args :
  outcome (update env flags args) = inl Panic ->
  exists k c cm, GetIssueComment env k c = Ok cm /\ Body cm = BodyOther.
Proof. intros H. exact (update_halts flags args H). Qed.

(** X4.  A run that ends through [cmdutil.Failed] does so with one of three
    messages: the missing-field message of the guard, "Action aborted", or
    "Error: " followed by the error of a failed read. *)
Theorem failure_messages flags args msg :
  outcome (update env flags args) = inl (Failed msg) ->
  msg = missing_msg \/
  msg = "Action aborted" \/
  exists path e, ReadFile env path = Err e /\ msg = "Error: " ++ e.
Proof. intros H. exact (update_halts flags args H). Qed.

(** X5.  An error the run exits with is never made up by the command: it
    was returned by one of the four flag getters, by a prompt, by the
    fetch, by the remote update or by the browser. *)
Theorem exit_errors_come_from_outside flags args e :
  outcome (update env flags args) = inl (ExitError e) ->
  GetBool flags "debug" = Err e \/
  GetString flags "template" = Err e \/
  GetBool flags "no-input" = Err e \/
  GetBool flags "internal" = Err e \/
  (exists q, answer_of env q = Err e) \/
  (exists k c, GetIssueComment env k c = Err e) \/
  (exists k c t i, UpdateIssueComment env k c t i = Some e) \/
  (exists s k, Navigate env s k = Some e).
Proof. intros H. exact (update_halts flags args H). Qed.

(** ** Piped input *)

(** X6.  When the mode detector fires (data on standard input, or the
    template flag "-"), the run asks nothing at all, neither key, id,
    editor nor confirmation, and fetches no comment, whatever the no-input
    flag says. *)
Theorem detected_run_asks_nothing flags args p :
  outcome (parseArgsAndFlags env args flags) = inr p ->
  nonInteractive env p = true ->
  (forall q, ~ In (EvAsk q) (trace (update env flags args))) /\
  (forall k c, ~ In (EvGetIssueComment k c) (trace (update env flags args))).
Proof.
  intros Hp Hni.
  assert (Hu : unattended env p = true).
  { unfold unattended. rewrite Hni. apply orb_true_r. }
  split.
  - intros q Hin.
    destruct (update_event_in env flags args _ Hp Hin) as [Hr | (q' & Hq & Hc)].
    + destruct Hr as [[Hx | [Hx | [(_ & _ & Hm) | (_ & _ & Hm)]]]
                     | (p' & Hin' & Hs)]; try discriminate; try congruence.
      exact (unattended_event Hin' Hu Hs).
    + destruct Hc as [(_ & Hf) | []].
      destruct Hq as (p1 & Hin1 & _ & t & Hq' & _). cbn in Hq'. subst q'.
      cbn in Hf. destruct Hin1 as (_ & _ & _ & _ & Hn1 & _).
      unfold unattended in Hu. congruence.
  - intros k c Hin.
    destruct (update_event_in env flags args _ Hp Hin) as [Hr | (q' & Hq & Hc)].
    + destruct Hr as [[Hx | [Hx | [(Hx & _) | (Hx & _)]]] | (p' & Hin' & Hs)];
        try discriminate.
      exact (unattended_event Hin' Hu Hs).
    + destruct Hc as [(Hx & _) | []]. discriminate.
Qed.

Lemma eqb_empty_false s : s <> "" -> (s =? "") = false.
Proof. intros H. apply String.eqb_neq. exact H. Qed.

Lemma bind_ret_l A B (a : A) (k : A -> Run B) : bind (ret a) k = k a.
Proof. unfold bind. cbn. apply (run_eta (k a)). Qed.

Lemma bind_emit_l B ev (k : unit -> Run B) :
  bind (emit ev) k = mkRun (ev :: trace (k tt)) (outcome (k tt)).
Proof. reflexivity. Qed.

(** When key and id are both there, neither is asked for. *)
Lemma ids_given p :
  issueKey p <> "" -> commentId p <> "" ->
  (r <- setIssueKey env p ;;
   cmdutil_ExitIfError (fst r) ;;;
   r <- setCommentId env (snd r) ;;
   cmdutil_ExitIfError (fst r) ;;;
   ret (snd r)) = ret p.
Proof.
  intros Hk Hc.
  rewrite setIssueKey_run, (eqb_empty_false Hk), bind_ret_l.
  cbn [fst snd cmdutil_ExitIfError]. rewrite bind_ret_l.
  rewrite setCommentId_run, (eqb_empty_false Hc), bind_ret_l.
  cbn [fst snd cmdutil_ExitIfError]. rewrite bind_ret_l. reflexivity.
Qed.

Lemma identify_given flags args p :
  outcome (parseArgsAndFlags env args flags) = inr p ->
  issueKey p <> "" -> commentId p <> "" ->
  identify env flags args =
  mkRun [EvDefaultClient (debug p); EvStdinHasData (StdinHasData env)]
        (inr (if nonInteractive env p then with_noInput p true else p)).
Proof.
  intros Hp Hk Hc. unfold identify. rewrite (bind_parse env _ _ _ Hp).
  unfold isNonInteractive, cmdutil_StdinHasData, nonInteractive.
  rewrite bind_emit_l.
  destruct (StdinHasData env || (template p =? "-"))%bool eqn:Hmode.
  - assert (Hm : isMandatoryParamsMissing (with_noInput p true) = false).
    { unfold isMandatoryParamsMissing. cbn.
      rewrite (eqb_empty_false Hk), (eqb_empty_false Hc). reflexivity. }
    cbn -[setIssueKey setCommentId]. rewrite Hmode.
    cbn -[setIssueKey setCommentId]. rewrite Hm.
    cbn -[setIssueKey setCommentId].
    rewrite (@ids_given (with_noInput p true) Hk Hc). reflexivity.
  - cbn -[setIssueKey setCommentId]. rewrite Hmode.
    cbn -[setIssueKey setCommentId].
    rewrite (@ids_given p Hk Hc). reflexivity.
Qed.

(** X7.  With data piped on standard input, key and id given, no literal
    body and no template flag, resolution is exactly: build the client,
    probe standard input twice (mode detector, then [setBody]), read
    standard input through [cmdutil.ReadFile] with the empty path; it
    forces [noInput] and takes the content read as the body, and the commit
    step follows without a confirmation. *)
Theorem piped_input_is_body flags args p content :
  outcome (parseArgsAndFlags env args flags) = inr p ->
  StdinHasData env = true ->
  template p = "" ->
  body p = "" ->
  issueKey p <> "" ->
  commentId p <> "" ->
  ReadFile env "" = Ok content ->
  let p' := with_body (with_noInput p true) content in
  update env flags args =
  mkRun ([EvDefaultClient (debug p); EvStdinHasData true;
          EvStdinHasData true; EvReadFile ""]
         ++ trace (commit env flags p'))%list
        (outcome (commit env flags p')).
Proof.
  intros Hp Hs Ht Hb Hk Hc Hr p'.
  assert (Hres : resolve env flags args =
                 mkRun [EvDefaultClient (debug p); EvStdinHasData true;
                        EvStdinHasData true; EvReadFile ""] (inr p')).
  { unfold resolve. rewrite (identify_given _ _ Hp Hk Hc).
    unfold nonInteractive. rewrite Hs. cbn [orb].
    unfold bind at 1. cbn [outcome trace].
    unfold setBody, cmdutil_StdinHasData, cmdutil_ReadFile. subst p'.
    destruct p as [k c b t n i d]. cbn in Ht, Hb. subst b t.
    cbn. rewrite Hs. cbn. rewrite Hr. reflexivity. }
  assert (Hout : outcome (resolve env flags args) = inr p')
    by (rewrite Hres; reflexivity).
  unfold update. rewrite (@bind_returns _ _ _ _ p' Hout).
  rewrite (confirm_quiet env p' eq_refl), Hres, bind_ret_l. reflexivity.
Qed.

(** ** Reading the body *)

Lemma setBody_unreadable p e :
  body p = "" -> has_source env p = true ->
  ReadFile env (template p) = Err e ->
  outcome (setBody env p) = inl (Failed ("Error: " ++ e)) /\
  forall ev, In ev (trace (setBody env p)) ->
             ev = EvStdinHasData true \/ ev = EvReadFile (template p).
Proof.
  intros Hb Hsrc Hr. unfold setBody. rewrite Hb. cbn [String.eqb negb].
  unfold has_source in Hsrc. unfold cmdutil_StdinHasData, cmdutil_ReadFile.
  destruct (template p =? ""); cbn [negb orb] in *.
  - rewrite Hsrc. cbn. rewrite Hr. cbn. split; [reflexivity |].
    intros ev [<- | [<- | []]]; auto.
  - cbn. rewrite Hr. cbn. split; [reflexivity |].
    intros ev [<- | []]; auto.
Qed.

(** X8.  When the template or standard input is to be read (line 222) and
    the read fails, the run ends with the failure "Error: " followed by the
    read error; nothing is fetched, the editor is not opened and no remote
    update is made.  This holds with and without [noInput]. *)
Theorem unreadable_source_fails flags args p e :
  outcome (identify env flags args) = inr p ->
  body p = "" ->
  has_source env p = true ->
  ReadFile env (template p) = Err e ->
  outcome (update env flags args) = inl (Failed ("Error: " ++ e)) /\
  (forall k c, ~ In (EvGetIssueComment k c) (trace (update env flags args))) /\
  (forall d, ~ In (EvAsk (bodyQuestion d)) (trace (update env flags args))) /\
  (forall k c t i,
     ~ In (EvUpdateIssueComment k c t i) (trace (update env flags args))).
Proof.
  intros Hid Hb Hsrc Hr.
  destruct (setBody_unreadable _ Hb Hsrc Hr) as [Hout Htr].
  rewrite (update_setBody_halts env _ _ Hid Hout). cbn [trace outcome].
  assert (Hev : forall ev,
            In ev (trace (identify env flags args) ++ trace (setBody env p)) ->
            match ev with
            | EvGetIssueComment _ _ | EvUpdateIssueComment _ _ _ _ => False
            | EvAsk q => Name q <> "body"
            | _ => True
            end).
  { intros ev Hin. apply in_app_or in Hin. destruct Hin as [Hin | Hin].
    - destruct (always_event _ (identify_spec env flags args) Hin)
        as (p0 & _ & Hev).
      destruct Hev as [-> | [-> | [(-> & _) | (-> & _)]]];
        try exact I; discriminate.
    - destruct (Htr _ Hin) as [-> | ->]; exact I. }
  split; [reflexivity |]. split; [| split].
  - intros k c Hin. exact (Hev _ Hin).
  - intros d Hin. apply (Hev _ Hin). reflexivity.
  - intros k c t i Hin. exact (Hev _ Hin).
Qed.

(** X9.  The existing comment is fetched only in a run that was given no
    literal body and no template flag and in which [noInput] is off, both
    by the flag and by the mode detector. *)
Theorem fetch_needs_prefill flags args k c :
  In (EvGetIssueComment k c) (trace (update env flags args)) ->
  exists p,
    outcome (parseArgsAndFlags env args flags) = inr p /\
    body p = "" /\ template p = "" /\ unattended env p = false.
Proof.
  intros Hin. destruct (update_parsed env flags args _ Hin) as (p & Hp).
  exists p. split; [exact Hp |].
  destruct (update_event_in env flags args _ Hp Hin) as [Hr | (q & Hq & Hc)].
  - destruct Hr as [[Hx | [Hx | [(Hx & _) | (Hx & _)]]] | (p' & Hin' & Hs)];
      try discriminate.
    destruct Hin' as (Hb & Ht & _ & _ & Hn & _).
    destruct Hs as (Hb' & _ & _ & Hn' & Ht').
    unfold unattended. repeat split; congruence.
  - destruct Hc as [(Hx & _) | []]. discriminate.
Qed.

(** X10.  When a template flag is given, an editor that is opened is
    opened on the template's content as read by [cmdutil.ReadFile], and the
    existing comment is not fetched. *)
Theorem editor_opens_on_template flags args p d :
  outcome (parseArgsAndFlags env args flags) = inr p ->
  template p <> "" ->
  In (EvAsk (bodyQuestion d)) (trace (update env flags args)) ->
  ReadFile env (template p) = Ok d /\
  forall k c, ~ In (EvGetIssueComment k c) (trace (update env flags args)).
Proof.
  intros Hp Ht Hin. split.
  - destruct (update_event_in env flags args _ Hp Hin) as [Hr | (q & Hq & Hc)].
    + destruct Hr as [[Hx | [Hx | [(Hx & _) | (Hx & _)]]] | (p' & Hin' & Hs)];
        try discriminate.
      destruct Hin' as (_ & Ht' & _).
      destruct Hs as (_ & _ & d' & Hd & Hdef).
      injection Hd as ->. unfold editor_default in Hdef.
      rewrite Ht' in Hdef.
      destruct (String.eqb_spec (template p) ""); [contradiction | exact Hdef].
    + destruct Hc as [(Hx & _) | []]. discriminate.
  - intros k c Hf.
    destruct (update_event_in env flags args _ Hp Hf) as [Hr | (q & Hq & Hc)].
    + destruct Hr as [[Hx | [Hx | [(Hx & _) | (Hx & _)]]] | (p' & Hin' & Hs)];
        try discriminate.
      destruct Hin' as (_ & Ht' & _).
      destruct Hs as (_ & _ & _ & _ & Hempty). congruence.
    + destruct Hc as [(Hx & _) | []]. discriminate.
Qed.

(** ** The remote update *)

(** X11.  When the remote update returns an error, the run ends with that
    error right after the spinner is stopped: no success message and no
    link are printed and the browser is not opened. *)
Theorem failed_update_reports_nothing flags args p e :
  outcome (resolve env flags args) = inr p ->
  outcome (confirm env p) = inr tt ->
  UpdateIssueComment env (issueKey p) (commentId p) (body p) (internal p)
    = Some e ->
  update env flags args =
  mkRun (trace (resolve env flags args) ++ trace (confirm env p) ++
         [EvInfo "Adding comment";
          EvUpdateIssueComment (issueKey p) (commentId p) (body p) (internal p);
          EvStop])%list
        (inl (ExitError e)).
Proof.
  intros Hr Hc Hup. unfold update.
  rewrite (@bind_returns _ _ _ _ p Hr).
  rewrite (@bind_returns _ _ _ _ tt Hc).
  rewrite commit_run, Hup. reflexivity.
Qed.

Lemma update_calls_app t1 t2 :
  update_calls (t1 ++ t2) = update_calls t1 + update_calls t2.
Proof. unfold update_calls. rewrite filter_app, length_app. reflexivity. Qed.

Lemma update_calls_none t :
  (forall k c b i, ~ In (EvUpdateIssueComment k c b i) t) ->
  update_calls t = 0.
Proof.
  unfold update_calls. induction t as [| ev t IH]; intros H; [reflexivity |].
  cbn. destruct ev; cbn;
    try (apply IH; intros k c b i Hin; apply (H k c b i); right; exact Hin).
  exfalso. eapply H. left. reflexivity.
Qed.

Lemma resolve_calls flags args :
  update_calls (trace (resolve env flags args)) = 0.
Proof.
  apply update_calls_none. intros k c b i.
  apply (resolve_no_update env flags args).
Qed.

Lemma confirm_calls p : update_calls (trace (confirm env p)) = 0.
Proof.
  apply update_calls_none. intros k c b i. apply (confirm_no_update env p).
Qed.

Lemma commit_calls flags p : update_calls (trace (commit env flags p)) = 1.
Proof.
  rewrite commit_run.
  destruct (UpdateIssueComment env _ _ _ _); [reflexivity |].
  destruct (GetBool flags "web") as [[|] |]; reflexivity.
Qed.

(** X12.  A run makes the remote update call at most once. *)
Theorem at_most_one_update flags args :
  update_calls (trace (update env flags args)) <= 1.
Proof.
  destruct (update_stretches env flags args)
    as [(h & Hr & Hu) | (p & Hr & [(h & Hc & Hu) | (Hc & Hu)])];
    rewrite Hu; cbn [trace]; repeat rewrite update_calls_app;
    rewrite ?resolve_calls, ?confirm_calls, ?commit_calls; lia.
Qed.

(** X13.  A run that ends well has made the remote update call exactly
    once, the call returned no error, and the success message and the deep
    link were printed for the key and the id of that very call, followed at
    most by the browser navigation. *)
Theorem success_reports_the_update flags args :
  outcome (update env flags args) = inr tt ->
  update_calls (trace (update env flags args)) = 1 /\
  exists p pre rest,
    outcome (resolve env flags args) = inr p /\
    UpdateIssueComment env (issueKey p) (commentId p) (body p) (internal p)
      = None /\
    trace (update env flags args) = (pre ++ committed env p ++ rest)%list /\
    (rest = [] \/
     rest = [EvNavigate (viper_GetString env "server") (issueKey p)]).
Proof.
  intros Hok.
  destruct (update_stretches env flags args)
    as [(h & Hr & Hu) | (p & Hr & [(h & Hc & Hu) | (Hc & Hu)])];
    rewrite Hu in Hok |- *; cbn [trace outcome] in *; try discriminate.
  split.
  - repeat rewrite update_calls_app.
    rewrite resolve_calls, confirm_calls, commit_calls. reflexivity.
  - exists p, (trace (resolve env flags args) ++ trace (confirm env p))%list.
    rewrite commit_run in Hok |- *.
    destruct (UpdateIssueComment env (issueKey p) (commentId p) (body p)
                                 (internal p)) as [e |] eqn:Hup;
      [discriminate |].
    destruct (GetBool flags "web") as [[|] | e] eqn:Hweb; cbv zeta;
      cbn [trace].
    + eexists. repeat split; try reflexivity; try assumption.
      * rewrite <- app_assoc. reflexivity.
      * right. reflexivity.
    + exists []. repeat split; try reflexivity; try assumption.
      * rewrite <- app_assoc, app_nil_r. reflexivity.
      * left. reflexivity.
    + exists []. repeat split; try reflexivity; try assumption.
      * rewrite <- app_assoc, app_nil_r. reflexivity.
      * left. reflexivity.
Qed.

Lemma result_eq_submit (r : result string) :
  r = Ok ActionSubmit \/ r <> Ok ActionSubmit.
Proof.
  destruct r as [a | e]; [| right; discriminate].
  destruct (String.eqb_spec a ActionSubmit) as [-> | Hne];
    [left; reflexivity | right; congruence].
Qed.

(** X14.  With [noInput] off after resolution, the remote update is called
    exactly when the answer at the gate is submit; on cancel and on an
    interrupted prompt it is not. *)
Theorem update_iff_submit flags args p :
  outcome (resolve env flags args) = inr p ->
  noInput p = false ->
  (In (EvUpdateIssueComment (issueKey p) (commentId p) (body p) (internal p))
      (trace (update env flags args)) <->
   answer_of env getNextAction = Ok ActionSubmit) /\
  (answer_of env getNextAction <> Ok ActionSubmit ->
   update_calls (trace (update env flags args)) = 0).
Proof.
  intros Hr Hn.
  pose proof (confirm_asks env p Hn) as Hc.
  assert (Hsub : answer_of env getNextAction = Ok ActionSubmit ->
                 outcome (confirm env p) = inr tt).
  { intros Ha. rewrite Hc, Ha. reflexivity. }
  assert (Hnot : answer_of env getNextAction <> Ok ActionSubmit ->
                 exists h, outcome (confirm env p) = inl h).
  { intros Ha. rewrite Hc. cbn [outcome].
    destruct (answer_of env getNextAction) as [a |] eqn:Hans; [| eauto].
    destruct (action_answer env Hans) as [-> | ->];
      [contradiction | cbn; eauto]. }
  assert (Hzero : answer_of env getNextAction <> Ok ActionSubmit ->
                  update_calls (trace (update env flags args)) = 0).
  { intros Ha. destruct (Hnot Ha) as (h & Hh). unfold update.
    rewrite (@bind_returns _ _ _ _ p Hr).
    rewrite (@bind_halts _ _ (confirm env p) _ h Hh). cbn [trace].
    rewrite update_calls_app, resolve_calls, confirm_calls. reflexivity. }
  split; [split |]; [| | exact Hzero].
  - intros Hin.
    destruct (result_eq_submit (answer_of env getNextAction)) as [Ha | Ha];
      [exact Ha | exfalso].
    pose proof (Hzero Ha) as Hz.
    unfold update_calls in Hz.
    assert (Hf : In (EvUpdateIssueComment (issueKey p) (commentId p) (body p)
                                          (internal p))
                    (filter is_update_call (trace (update env flags args)))).
    { apply filter_In. split; [exact Hin | reflexivity]. }
    destruct (filter is_update_call (trace (update env flags args)));
      [destruct Hf | discriminate].
  - intros Ha. unfold update. eapply in_trace_bind_r; [exact Hr |].
    eapply in_trace_bind_r; [exact (Hsub Ha) |].
    apply commit_calls_update.
Qed.

(** ** Key and id of the call *)

Lemma required_answer_nonempty q msg a :
  prompt q = Input msg -> Required q = true ->
  answer_of env q = Ok a -> a <> "".
Proof.
  intros Hq Hreq. unfold answer_of. rewrite Hq. intros H.
  apply first_accepted_accepts in H. unfold survey_Required in H.
  rewrite Hreq in H. apply nonempty_true. exact H.
Qed.







(** X16.  What was given on the command line reaches the remote call
    unchanged: the internal flag always, the expanded issue key and the
    comment id whenever they were given non-empty. *)
Theorem given_fields_reach_the_call flags args p k c t i :
  outcome (parseArgsAndFlags env args flags) = inr p ->
  In (EvUpdateIssueComment k c t i) (trace (update env flags args)) ->
  i = internal p /\
  (issueKey p <> "" -> k = issueKey p) /\
  (commentId p <> "" -> c = commentId p).
Proof.
  intros Hp Hin.
  destruct (update_event_in env flags args _ Hp Hin) as [Hr | (q & Hq & Hc)].
  - destruct Hr as [[Hx | [Hx | [(Hx & _) | (Hx & _)]]] | (p' & _ & _ & [])];
      discriminate.
  - destruct Hc as [(Hx & _) | Hc]; [discriminate |].
    cbn in Hc. destruct Hc as (-> & -> & _ & ->).
    destruct Hq as (p1 & Hin1 & _ & b & Hq' & _). cbn in Hq'. subst q. cbn.
    destruct Hin1 as (_ & _ & Hi & _ & _ & Hk & Hc' & _). auto.
Qed.

(** ** Typing the key and the id *)

Lemma ids_asked p k c :
  issueKey p = "" -> commentId p = "" ->
  answer_of env issueKeyQuestion = Ok k ->
  answer_of env commentIdQuestion = Ok c ->
  (r <- setIssueKey env p ;;
   cmdutil_ExitIfError (fst r) ;;;
   r <- setCommentId env (snd r) ;;
   cmdutil_ExitIfError (fst r) ;;;
   ret (snd r)) =
  mkRun [EvAsk issueKeyQuestion; EvAsk commentIdQuestion]
        (inr (with_commentId
                (with_issueKey p
                   (GetJiraIssueKey env (viper_GetString env "project.key") k))
                c)).
Proof.
  intros Hk Hc Hak Hac.
  rewrite setIssueKey_run, Hk, Hak. cbn [String.eqb].
  unfold bind at 1. cbn [outcome trace fst snd cmdutil_ExitIfError].
  rewrite bind_ret_l, setCommentId_run. cbn [commentId with_issueKey].
  rewrite Hc, Hac. reflexivity.
Qed.

Lemma parse_fails_for_all_args flags args args' h :
  outcome (parseArgsAndFlags env args flags) = inl h ->
  outcome (parseArgsAndFlags env args' flags) = inl h.
Proof.
  unfold parseArgsAndFlags.
  destruct (GetBool flags "debug"); cbn; [| auto].
  destruct (GetString flags "template"); cbn; [| auto].
  destruct (GetBool flags "no-input"); cbn; [| auto].
  destruct (GetBool flags "internal"); cbn; [discriminate | auto].
Qed.

(** X17.  In a run the mode detector leaves alone, a key and an id typed
    at the prompts resolve to the same parameters as the same key and id
    given as the first two arguments, provided the key's expansion is not
    empty. *)
Theorem typed_ids_as_given flags k c :
  StdinHasData env = false ->
  GetString flags "template" <> Ok "-" ->
  answer_of env issueKeyQuestion = Ok k ->
  answer_of env commentIdQuestion = Ok c ->
  GetJiraIssueKey env (viper_GetString env "project.key") k <> "" ->
  outcome (identify env flags []) = outcome (identify env flags [k; c]).
Proof.
  intros Hs Ht Hak Hac Hkey.
  destruct (outcome (parseArgsAndFlags env [] flags)) as [h | p0] eqn:Hp0.
  - pose proof (parse_fails_for_all_args _ _ [k; c] Hp0) as Hp1.
    unfold identify.
    rewrite (@bind_halts _ _ (parseArgsAndFlags env [] flags) _ h Hp0).
    rewrite (@bind_halts _ _ (parseArgsAndFlags env [k; c] flags) _ h Hp1).
    reflexivity.
  - destruct (parse_inv env [] flags Hp0)
      as (Hd & Htpl & Hn & Hi & Hk0 & Hc0 & Hb0).
    cbn in Hk0, Hc0, Hb0.
    assert (Hc : c <> "")
      by exact (required_answer_nonempty commentIdQuestion eq_refl eq_refl Hac).
    assert (Hmode : nonInteractive env p0 = false).
    { unfold nonInteractive. rewrite Hs. cbn [orb].
      apply String.eqb_neq. intros Heq. apply Ht. rewrite Htpl, Heq.
      reflexivity. }
    set (p1 := mkParams
                 (GetJiraIssueKey env (viper_GetString env "project.key") k)
                 c "" (template p0) (noInput p0) (internal p0) (debug p0)).
    assert (Hp1 : outcome (parseArgsAndFlags env [k; c] flags) = inr p1).
    { rewrite (parse_ok env [k; c] flags Hd Htpl Hn Hi). reflexivity. }
    rewrite (identify_given _ _ Hp1 Hkey Hc).
    assert (Hmode1 : nonInteractive env p1 = false) by exact Hmode.
    rewrite Hmode1.
    unfold identify. rewrite (bind_parse env _ _ _ Hp0).
    unfold isNonInteractive, cmdutil_StdinHasData.
    rewrite bind_emit_l. unfold nonInteractive in Hmode.
    cbn -[setIssueKey setCommentId]. rewrite Hmode.
    cbn -[setIssueKey setCommentId].
    rewrite (ids_asked p0 Hk0 Hc0 Hak Hac). cbn.
    destruct p0 as [k0 c0 b0 t0 n0 i0 d0]. cbn in *. subst. reflexivity.
Qed.

(** X18.  When the key has to be asked for and the prompt ends in an
    error, the run ends with that error right after the question: the
    comment id is not asked for and nothing is read, fetched or sent. *)
Theorem interrupted_key_prompt_ends_run flags args p e :
  outcome (parseArgsAndFlags env args flags) = inr p ->
  nonInteractive env p = false ->
  issueKey p = "" ->
  answer_of env issueKeyQuestion = Err e ->
  update env flags args =
  mkRun [EvDefaultClient (debug p); EvStdinHasData (StdinHasData env);
         EvAsk issueKeyQuestion]
        (inl (ExitError e)).
Proof.
  intros Hp Hmode Hk He.
  assert (Hid : identify env flags args =
                mkRun [EvDefaultClient (debug p);
                       EvStdinHasData (StdinHasData env);
                       EvAsk issueKeyQuestion]
                      (inl (ExitError e))).
  { unfold identify. rewrite (bind_parse env _ _ _ Hp).
    unfold isNonInteractive, cmdutil_StdinHasData.
    rewrite bind_emit_l. unfold nonInteractive in Hmode.
    cbn -[setIssueKey setCommentId]. rewrite Hmode.
    cbn -[setIssueKey setCommentId].
    rewrite setIssueKey_run, Hk, He. reflexivity. }
  unfold update, resolve.
  rewrite (@bind_halts _ _ (identify env flags args) _ (ExitError e));
    rewrite Hid; reflexivity.
Qed.

(** ** The edited body *)

Lemma setBody_edited p r :
  outcome (setBody env p) = inr r ->
  body p = "" -> noInput p = false ->
  exists d,
    editor_default env p d /\
    answer_of env (bodyQuestion d) = Ok (body (snd r)).
Proof.
  intros Hr Hb Hn. revert Hr. unfold setBody, editor_default.
  rewrite Hb, Hn. cbn [String.eqb negb].
  unfold cmdutil_StdinHasData, cmdutil_ReadFile, client_GetIssueComment,
    body_of_comment.
  assert (Hedit : forall d,
            outcome (r0 <- survey_Ask env [bodyQuestion d] ;;
                     ans <- orExit r0 ;;
                     ret (None, with_body p (field "body" ans))) = inr r ->
            answer_of env (bodyQuestion d) = Ok (body (snd r))).
  { intros d. rewrite survey_Ask_one. unfold bind at 1.
    cbn [outcome trace].
    destruct (answer_of env (bodyQuestion d)) as [ans | err]; cbn;
      [| discriminate].
    intros H. injection H as <-. reflexivity. }
  destruct (template p =? "") eqn:Ht; cbn [negb].
  - destruct (StdinHasData env); cbn -[survey_Ask];
      try destruct (ReadFile env (template p)); cbn -[survey_Ask];
      try discriminate;
      (destruct (GetIssueComment env (issueKey p) (commentId p))
         as [cm | err] eqn:Hg; cbn -[survey_Ask]; [| discriminate]);
      (destruct (Body cm) as [adfNode | s |] eqn:Hcm; cbn -[survey_Ask];
       [| | discriminate]);
      intros H; apply Hedit in H; eexists; (split; [| exact H]);
      exists cm; unfold normalized; rewrite Hcm; auto.
  - destruct (ReadFile env (template p)) as [content | err] eqn:Hrd;
      cbn -[survey_Ask]; [| discriminate].
    intros H. apply Hedit in H. exists content. auto.
Qed.

(** X19.  With [noInput] off and no literal body, the body of the remote
    update is the text the editor accepted, the editor having been opened
    on the translation of the fetched comment or, with a template flag, on
    the template's content. *)
Theorem edited_text_is_sent flags args k c t i :
  In (EvUpdateIssueComment k c t i) (trace (update env flags args)) ->
  forall p,
    outcome (identify env flags args) = inr p ->
    body p = "" -> noInput p = false ->
    exists d,
      editor_default env p d /\
      answer_of env (bodyQuestion d) = Ok t.
Proof.
  intros Hin p Hid Hb Hn.
  destruct (update_stretches env flags args)
    as [(h & Hr & Hu) | (q & Hr & [(h & Hc & Hu) | (Hc & Hu)])].
  - exfalso. rewrite Hu in Hin. exact (resolve_no_update env _ _ _ _ _ _ Hin).
  - exfalso. rewrite Hu in Hin. cbn [trace] in Hin.
    apply in_app_or in Hin. destruct Hin as [Hin | Hin].
    + exact (resolve_no_update env _ _ _ _ _ _ Hin).
    + exact (confirm_no_update env _ _ _ _ _ Hin).
  - assert (Hcm : commit_event q (EvUpdateIssueComment k c t i)).
    { rewrite Hu in Hin. cbn [trace] in Hin.
      apply in_app_or in Hin. destruct Hin as [Hin | Hin];
        [exfalso; exact (resolve_no_update env _ _ _ _ _ _ Hin) |].
      apply in_app_or in Hin. destruct Hin as [Hin | Hin];
        [exfalso; exact (confirm_no_update env _ _ _ _ _ Hin) |].
      exact (always_event _ (commit_always env flags q) Hin). }
    cbn in Hcm. destruct Hcm as (_ & _ & -> & _).
    unfold resolve in Hr.
    apply outcome_bind_inv in Hr. destruct Hr as (p' & Hid' & Hr).
    assert (p' = p) by congruence. subst p'.
    apply outcome_bind_inv in Hr. destruct Hr as (r & Hs & Hr).
    apply outcome_bind_inv in Hr. destruct Hr as (u & _ & Hr).
    injection Hr as <-.
    destruct (setBody_edited _ Hs Hb Hn) as (d & Hd & Ha).
    exists d. split; [exact Hd | exact Ha].
Qed.

End MoreFacts.

(** ** Concrete runs for the further properties *)

Lemma flag_error_ends_run_witness :
  outcome (parseArgsAndFlags quiet_env ["PROJ-1"; "1001"] no_flags)
    = inl (ExitError "flag accessed but not defined: debug") /\
  update quiet_env no_flags ["PROJ-1"; "1001"] =
  mkRun [] (inl (ExitError "flag accessed but not defined: debug")).
Proof.
  split; [reflexivity |].
  destruct (@flag_error_ends_run unit quiet_env no_flags ["PROJ-1"; "1001"]
              (ExitError "flag accessed but not defined: debug") eq_refl)
    as [H _].
  exact H.
Defined.

Lemma panic_needs_odd_body_witness :
  outcome (update odd_env (sample_flags "" false false false)
                  ["PROJ-1"; "1001"]) = inl Panic /\
  exists k c cm,
    GetIssueComment odd_env k c = Ok cm /\ Body cm = BodyOther.
Proof.
  split; [reflexivity |].
  exact (@panic_needs_odd_body unit odd_env
           (sample_flags "" false false false) ["PROJ-1"; "1001"] eq_refl).
Defined.

Lemma failure_messages_witness :
  outcome (update cancelling_env (sample_flags "" false false false)
                  ["PROJ-1"; "1001"; "text"])
    = inl (Failed "Action aborted") /\
  ("Action aborted" = missing_msg \/
   "Action aborted" = "Action aborted" \/
   exists path e,
     ReadFile cancelling_env path = Err e /\
     "Action aborted" = "Error: " ++ e).
Proof.
  split; [reflexivity |].
  exact (@failure_messages unit cancelling_env
           (sample_flags "" false false false) ["PROJ-1"; "1001"; "text"]
           "Action aborted" eq_refl).
Defined.

Lemma exit_errors_come_from_outside_witness :
  outcome (update quiet_env (sample_flags "" false false false) [])
    = inl (ExitError InterruptErr) /\
  (GetBool (sample_flags "" false false false) "debug" = Err InterruptErr \/
   GetString (sample_flags "" false false false) "template" = Err InterruptErr \/
   GetBool (sample_flags "" false false false) "no-input" = Err InterruptErr \/
   GetBool (sample_flags "" false false false) "internal" = Err InterruptErr \/
   (exists q, answer_of quiet_env q = Err InterruptErr) \/
   (exists k c, GetIssueComment quiet_env k c = Err InterruptErr) \/
   (exists k c t i, UpdateIssueComment quiet_env k c t i = Some InterruptErr) \/
   (exists s k, Navigate quiet_env s k = Some InterruptErr)).
Proof.
  split; [reflexivity |].
  exact (@exit_errors_come_from_outside unit quiet_env
           (sample_flags "" false false false) [] InterruptErr eq_refl).
Defined.

Lemma detected_run_asks_nothing_witness :
  outcome (parseArgsAndFlags piped_env ["PROJ-1"; "1001"]
             (sample_flags "" false false false))
    = inr (mkParams "PROJ-1" "1001" "" "" false false false) /\
  nonInteractive piped_env (mkParams "PROJ-1" "1001" "" "" false false false)
    = true /\
  forall q,
    ~ In (EvAsk q)
         (trace (update piped_env (sample_flags "" false false false)
                        ["PROJ-1"; "1001"])).
Proof.
  split; [reflexivity |]. split; [reflexivity |].
  destruct (@detected_run_asks_nothing unit piped_env
              (sample_flags "" false false false) ["PROJ-1"; "1001"]
              (mkParams "PROJ-1" "1001" "" "" false false false)
              eq_refl eq_refl)
    as [H _].
  exact H.
Defined.

Lemma piped_input_is_body_witness :
  outcome (parseArgsAndFlags piped_env ["PROJ-1"; "1001"]
             (sample_flags "" false false false))
    = inr (mkParams "PROJ-1" "1001" "" "" false false false) /\
  StdinHasData piped_env = true /\
  "" = "" /\ "" = "" /\ "PROJ-1" <> "" /\ "1001" <> "" /\
  ReadFile piped_env "" = Ok "from pipe" /\
  update piped_env (sample_flags "" false false false) ["PROJ-1"; "1001"] =
  mkRun ([EvDefaultClient false; EvStdinHasData true;
          EvStdinHasData true; EvReadFile ""]
         ++ trace (commit piped_env (sample_flags "" false false false)
                     (mkParams "PROJ-1" "1001" "from pipe" "" true false false)))%list
        (outcome (commit piped_env (sample_flags "" false false false)
                    (mkParams "PROJ-1" "1001" "from pipe" "" true false false))).
Proof.
  assert (Hk : "PROJ-1" <> "") by discriminate.
  assert (Hc : "1001" <> "") by discriminate.
  repeat (split; [first [reflexivity | assumption] |]).
  exact (@piped_input_is_body unit piped_env
           (sample_flags "" false false false) ["PROJ-1"; "1001"]
           (mkParams "PROJ-1" "1001" "" "" false false false) "from pipe"
           eq_refl eq_refl eq_refl eq_refl Hk Hc eq_refl).
Defined.

Lemma unreadable_source_fails_witness :
  outcome (identify quiet_env (sample_flags "missing.tmpl" true false false)
                    ["PROJ-1"; "1001"])
    = inr (mkParams "PROJ-1" "1001" "" "missing.tmpl" true false false) /\
  "" = "" /\
  has_source quiet_env
    (mkParams "PROJ-1" "1001" "" "missing.tmpl" true false false) = true /\
  ReadFile quiet_env "missing.tmpl"
    = Err "open missing.tmpl: no such file or directory" /\
  outcome (update quiet_env (sample_flags "missing.tmpl" true false false)
                  ["PROJ-1"; "1001"])
    = inl (Failed "Error: open missing.tmpl: no such file or directory").
Proof.
  repeat (split; [reflexivity |]).
  destruct (@unreadable_source_fails unit quiet_env
              (sample_flags "missing.tmpl" true false false)
              ["PROJ-1"; "1001"]
              (mkParams "PROJ-1" "1001" "" "missing.tmpl" true false false)
              "open missing.tmpl: no such file or directory"
              eq_refl eq_refl eq_refl eq_refl)
    as [H _].
  exact H.
Defined.

Lemma fetch_needs_prefill_witness :
  In (EvGetIssueComment "PROJ-1" "1001")
     (trace (update quiet_env (sample_flags "" false false false)
                    ["PROJ-1"; "1001"])) /\
  exists p,
    outcome (parseArgsAndFlags quiet_env ["PROJ-1"; "1001"]
               (sample_flags "" false false false)) = inr p /\
    body p = "" /\ template p = "" /\ unattended quiet_env p = false.
Proof.
  assert (Hin : In (EvGetIssueComment "PROJ-1" "1001")
                   (trace (update quiet_env (sample_flags "" false false false)
                                  ["PROJ-1"; "1001"]))).
  { vm_compute. tauto. }
  split; [exact Hin |].
  exact (@fetch_needs_prefill unit quiet_env
           (sample_flags "" false false false) ["PROJ-1"; "1001"]
           "PROJ-1" "1001" Hin).
Defined.

Lemma editor_opens_on_template_witness :
  outcome (parseArgsAndFlags quiet_env ["PROJ-1"; "1001"]
             (sample_flags "body.tmpl" false false false))
    = inr (mkParams "PROJ-1" "1001" "" "body.tmpl" false false false) /\
  "body.tmpl" <> "" /\
  In (EvAsk (bodyQuestion "from file"))
     (trace (update quiet_env (sample_flags "body.tmpl" false false false)
                    ["PROJ-1"; "1001"])) /\
  ReadFile quiet_env "body.tmpl" = Ok "from file".
Proof.
  assert (Hne : "body.tmpl" <> "") by discriminate.
  assert (Hin : In (EvAsk (bodyQuestion "from file"))
                   (trace (update quiet_env
                             (sample_flags "body.tmpl" false false false)
                             ["PROJ-1"; "1001"]))).
  { vm_compute. tauto. }
  split; [reflexivity |]. split; [exact Hne |]. split; [exact Hin |].
  destruct (@editor_opens_on_template unit quiet_env
              (sample_flags "body.tmpl" false false false)
              ["PROJ-1"; "1001"]
              (mkParams "PROJ-1" "1001" "" "body.tmpl" false false false)
              "from file" eq_refl Hne Hin)
    as [H _].
  exact H.
Defined.

Lemma failed_update_reports_nothing_witness :
  outcome (resolve rejecting_env (sample_flags "" true false true)
                   ["PROJ-1"; "1001"; "text"])
    = inr (mkParams "PROJ-1" "1001" "text" "" true false false) /\
  outcome (confirm rejecting_env
             (mkParams "PROJ-1" "1001" "text" "" true false false)) = inr tt /\
  UpdateIssueComment rejecting_env "PROJ-1" "1001" "text" false
    = Some "403 Forbidden" /\
  update rejecting_env (sample_flags "" true false true)
         ["PROJ-1"; "1001"; "text"] =
  mkRun [EvDefaultClient false; EvStdinHasData false;
         EvInfo "Adding comment";
         EvUpdateIssueComment "PROJ-1" "1001" "text" false;
         EvStop]
        (inl (ExitError "403 Forbidden")).
Proof.
  repeat (split; [reflexivity |]).
  exact (@failed_update_reports_nothing unit rejecting_env
           (sample_flags "" true false true) ["PROJ-1"; "1001"; "text"]
           (mkParams "PROJ-1" "1001" "text" "" true false false)
           "403 Forbidden" eq_refl eq_refl eq_refl).
Defined.

Lemma success_reports_the_update_witness :
  outcome (update quiet_env (sample_flags "" true false false)
                  ["PROJ-1"; "1001"; "text"]) = inr tt /\
  update_calls (trace (update quiet_env (sample_flags "" true false false)
                              ["PROJ-1"; "1001"; "text"])) = 1.
Proof.
  split; [reflexivity |].
  destruct (@success_reports_the_update unit quiet_env
              (sample_flags "" true false false)
              ["PROJ-1"; "1001"; "text"] eq_refl)
    as [H _].
  exact H.
Defined.

Lemma update_iff_submit_witness :
  outcome (resolve submitting_env (sample_flags "" false false false)
                   ["PROJ-1"; "1001"; "text"])
    = inr (mkParams "PROJ-1" "1001" "text" "" false false false) /\
  false = false /\
  (In (EvUpdateIssueComment "PROJ-1" "1001" "text" false)
      (trace (update submitting_env (sample_flags "" false false false)
                     ["PROJ-1"; "1001"; "text"])) <->
   answer_of submitting_env getNextAction = Ok ActionSubmit).
Proof.
  split; [reflexivity |]. split; [reflexivity |].
  destruct (@update_iff_submit unit submitting_env
              (sample_flags "" false false false)
              ["PROJ-1"; "1001"; "text"]
              (mkParams "PROJ-1" "1001" "text" "" false false false)
              eq_refl eq_refl)
    as [H _].
  exact H.
Defined.


Lemma given_fields_reach_the_call_witness :
  outcome (parseArgsAndFlags quiet_env ["12"; "1001"; "text"]
             (sample_flags "" true true false))
    = inr (mkParams "PROJ-12" "1001" "text" "" true true false) /\
  In (EvUpdateIssueComment "PROJ-12" "1001" "text" true)
     (trace (update quiet_env (sample_flags "" true true false)
                    ["12"; "1001"; "text"])) /\
  true = true.
Proof.
  assert (Hin : In (EvUpdateIssueComment "PROJ-12" "1001" "text" true)
                   (trace (update quiet_env (sample_flags "" true true false)
                                  ["12"; "1001"; "text"]))).
  { vm_compute. tauto. }
  split; [reflexivity |]. split; [exact Hin |].
  destruct (@given_fields_reach_the_call unit quiet_env
              (sample_flags "" true true false) ["12"; "1001"; "text"]
              (mkParams "PROJ-12" "1001" "text" "" true true false)
              "PROJ-12" "1001" "text" true eq_refl Hin)
    as [H _].
  exact H.
Defined.

Lemma typed_ids_as_given_witness :
  StdinHasData typing_env = false /\
  GetString (sample_flags "" false false false) "template" <> Ok "-" /\
  answer_of typing_env issueKeyQuestion = Ok "7" /\
  answer_of typing_env commentIdQuestion = Ok "1001" /\
  GetJiraIssueKey typing_env (viper_GetString typing_env "project.key") "7"
    <> "" /\
  outcome (identify typing_env (sample_flags "" false false false) []) =
  outcome (identify typing_env (sample_flags "" false false false)
                    ["7"; "1001"]).
Proof.
  assert (Ht : GetString (sample_flags "" false false false) "template"
               <> Ok "-") by discriminate.
  assert (Hk : GetJiraIssueKey typing_env
                 (viper_GetString typing_env "project.key") "7" <> "")
    by discriminate.
  split; [reflexivity |]. split; [exact Ht |].
  split; [reflexivity |]. split; [reflexivity |]. split; [exact Hk |].
  exact (@typed_ids_as_given unit typing_env
           (sample_flags "" false false false) "7" "1001"
           eq_refl Ht eq_refl eq_refl Hk).
Defined.

Lemma interrupted_key_prompt_ends_run_witness :
  outcome (parseArgsAndFlags quiet_env [] (sample_flags "" false false false))
    = inr (mkParams "" "" "" "" false false false) /\
  nonInteractive quiet_env (mkParams "" "" "" "" false false false) = false /\
  "" = "" /\
  answer_of quiet_env issueKeyQuestion = Err InterruptErr /\
  update quiet_env (sample_flags "" false false false) [] =
  mkRun [EvDefaultClient false; EvStdinHasData false; EvAsk issueKeyQuestion]
        (inl (ExitError InterruptErr)).
Proof.
  repeat (split; [reflexivity |]).
  exact (@interrupted_key_prompt_ends_run unit quiet_env
           (sample_flags "" false false false) []
           (mkParams "" "" "" "" false false false) InterruptErr
           eq_refl eq_refl eq_refl eq_refl).
Defined.

Lemma edited_text_is_sent_witness :
  In (EvUpdateIssueComment "PROJ-1" "1001" "old text (edited)" false)
     (trace (update editing_env (sample_flags "" false false false)
                    ["PROJ-1"; "1001"])) /\
  outcome (identify editing_env (sample_flags "" false false false)
                    ["PROJ-1"; "1001"])
    = inr (mkParams "PROJ-1" "1001" "" "" false false false) /\
  "" = "" /\ false = false /\
  exists d,
    editor_default editing_env
      (mkParams "PROJ-1" "1001" "" "" false false false) d /\
    answer_of editing_env (bodyQuestion d) = Ok "old text (edited)".
Proof.
  assert (Hin : In (EvUpdateIssueComment "PROJ-1" "1001"
                      "old text (edited)" false)
                   (trace (update editing_env
                             (sample_flags "" false false false)
                             ["PROJ-1"; "1001"]))).
  { vm_compute. tauto. }
  split; [exact Hin |]. repeat (split; [reflexivity |]).
  exact (@edited_text_is_sent unit editing_env
           (sample_flags "" false false false) ["PROJ-1"; "1001"]
           "PROJ-1" "1001" "old text (edited)" false Hin
           (mkParams "PROJ-1" "1001" "" "" false false false)
           eq_refl eq_refl eq_refl).
Defined.
